(** * Strava MCP server: token lifecycle, response cache, webhook buffer

    A shallow embedding of [token-manager.ts] (class [TokenManager]),
    [strava-client.ts] (class [StravaClient]) and the webhook event buffer
    of [index.ts], with the properties of the design document proved
    against it; then of the client methods, the two webhook endpoints and
    the duration format of [tools/search-activities.ts], with further
    properties read off the code.

    Conventions.
    - Every number the program handles (epoch timestamps in seconds and
      milliseconds, HTTP status codes, a count limit) is integer valued and
      far below 2^53, where JavaScript's double arithmetic is exact; such
      numbers are integers of [Z].  [parseInt] can also produce [NaN], so
      the type [JS.number] adds it.
    - The TypeScript declarations are trusted: a field declared [string]
      holds a string, a response body cast with [as {...}] has the fields
      of the cast.
    - The outside world (the clock read by [Date.now()] and the servers
      answering [fetch]) is an oracle, see [Environment]. *)

From Stdlib Require Import Ascii.
From stdpp Require Import base numbers strings gmap list pretty.

Local Open Scope Z_scope.

(** ** JavaScript runtime: numbers, truthiness, [parseInt], exceptions *)

Module JS.

(** A JavaScript [number], restricted to the integers and [NaN]. *)
Inductive number : Type :=
| Num (z : Z)
| NaN.

(** [a - b] *)
Definition sub (a b : number) : number :=
  match a, b with
  | Num x, Num y => Num (x - y)
  | _, _ => NaN
  end.

(** [a > b]: every comparison with [NaN] is false. *)
Definition gt (a b : number) : bool :=
  match a, b with
  | Num x, Num y => bool_decide (y < x)
  | _, _ => false
  end.

(** Truthiness of a string: only the empty string is falsy. *)
Definition truthy (s : string) : bool := negb (bool_decide (s = "")).

(** [v || d] for [v : string | undefined]. *)
Definition orElse (v : option string) (d : string) : string :=
  match v with
  | Some s => if truthy s then s else d
  | None => d
  end.

(** *** [parseInt(string)] with the radix left out

    ECMAScript's algorithm: strip leading white space, read an optional
    sign, strip a [0x]/[0X] prefix (which selects radix 16), take the
    longest prefix of digits of the radix, and answer [NaN] when that
    prefix is empty.  Strings are byte strings here, so only the ASCII
    white space characters are recognised.  The result is the integer that
    was read; JavaScript rounds it to a double, which changes it only
    beyond 2^53.  The properties that depend on what is read keep to
    ASCII strings and to integers of at most 2^53 in size. *)

Definition isWhiteSpace (c : ascii) : bool :=
  let n := Z.of_N (N_of_ascii c) in
  ((9 <=? n) && (n <=? 13)) || (n =? 32).

Fixpoint trimStart (s : string) : string :=
  match s with
  | String c s' => if isWhiteSpace c then trimStart s' else s
  | EmptyString => s
  end.

Definition digitValue (c : ascii) : option Z :=
  let n := Z.of_N (N_of_ascii c) in
  if (48 <=? n) && (n <=? 57) then Some (n - 48)
  else if (97 <=? n) && (n <=? 122) then Some (n - 87)
  else if (65 <=? n) && (n <=? 90) then Some (n - 55)
  else None.

Definition radixDigit (R : Z) (c : ascii) : option Z :=
  match digitValue c with
  | Some d => if d <? R then Some d else None
  | None => None
  end.

(** The value of the longest prefix of radix-[R] digits of [s]; [acc] is
    [None] until a first digit has been read. *)
Fixpoint digits (R : Z) (s : string) (acc : option Z) : option Z :=
  match s with
  | String c s' =>
      match radixDigit R c with
      | Some d => digits R s' (Some (R * default 0 acc + d))
      | None => acc
      end
  | EmptyString => acc
  end.

Definition parseInt (input : string) : number :=
  let str := trimStart input in
  let '(sign, str) :=
    match str with
    | String "-"%char rest => (-1, rest)
    | String "+"%char rest => (1, rest)
    | _ => (1, str)
    end in
  let '(R, str) :=
    match str with
    | String "0"%char (String "x"%char rest) => (16, rest)
    | String "0"%char (String "X"%char rest) => (16, rest)
    | _ => (10, str)
    end in
  match digits R str None with
  | Some mathInt => Num (sign * mathInt)
  | None => NaN
  end.

(** What a [throw] or a rejected promise carries. *)
Inductive Exn : Type :=
| Error (message : string)        (* [new Error(message)] *)
| FetchError (reason : string)    (* [fetch] rejected: no HTTP response *)
| JsonSyntaxError.                (* [response.json()] on a body that is not JSON *)

(** The outcome of a call: a value, or an exception. *)
Inductive Outcome (A : Type) : Type :=
| Returns (a : A)
| Throws (e : Exn).
Arguments Returns {A} a.
Arguments Throws {A} e.

End JS.

Import JS.

(** ** [token-manager.ts]: the credential store *)

Record TokenManager : Type := mkTokenManager {
  accessToken : string;
  refreshToken : string;
  expiresAt : number;
  clientId : string;
  clientSecret : string
}.

(** [process.env]: the variables that are set, with their values. *)
Abbreviation ProcessEnv := (gmap string string).

(** [constructor()] *)
Definition constructor (env : ProcessEnv) : Outcome TokenManager :=
  let accessToken := orElse (env !! "STRAVA_ACCESS_TOKEN") "" in
  let refreshToken := orElse (env !! "STRAVA_REFRESH_TOKEN") "" in
  let expiresAt := parseInt (orElse (env !! "STRAVA_EXPIRES_AT") "0") in
  let clientId := orElse (env !! "STRAVA_CLIENT_ID") "" in
  let clientSecret := orElse (env !! "STRAVA_CLIENT_SECRET") "" in
  if negb (truthy clientId) || negb (truthy clientSecret) then
    Throws (Error "STRAVA_CLIENT_ID and STRAVA_CLIENT_SECRET must be set")
  else if negb (truthy accessToken) || negb (truthy refreshToken) then
    Throws (Error "STRAVA_ACCESS_TOKEN and STRAVA_REFRESH_TOKEN must be set. Run setup-auth.ts first.")
  else
    Returns (mkTokenManager accessToken refreshToken expiresAt clientId clientSecret).

(** ** The outside world: HTTP and the clock *)

(** A deserialized response body of the data API ([any] in the source).  A
    number is kept as the decimal [mantissa * 10 ^ exponent] it was written
    as; the client never looks inside a payload. *)
#[local] Unset Elimination Schemes.
Inductive Json : Type :=
| JNull
| JBool (b : bool)
| JNumber (mantissa exponent : Z)
| JString (s : string)
| JArray (items : list Json)
| JObject (members : list (string * Json)).
#[local] Set Elimination Schemes.

(** The body of a token response, as [refresh] casts it. *)
Record TokenData : Type := mkTokenData {
  access_token : string;
  refresh_token : string;
  expires_at : number
}.

(** An HTTP response as the program uses it: [response.status],
    [response.text()] and [response.json()], the latter [None] when the
    body is not JSON. *)
Record Response (A : Type) : Type := mkResponse {
  status : Z;
  text : string;
  json : option A
}.
Arguments mkResponse {A} status text json.
Arguments status {A} r.
Arguments text {A} r.
Arguments json {A} r.

(** [response.ok]: the status is in the range 200-299. *)
Definition ok {A} (r : Response A) : bool :=
  (200 <=? status r) && (status r <? 300).

(** How the promise of a [fetch] settles. *)
Inductive Settled (A : Type) : Type :=
| Fulfilled (r : Response A)
| Rejected (reason : string).
Arguments Fulfilled {A} r.
Arguments Rejected {A} reason.

Inductive Method : Type := GET | POST.

(** The JSON body of the token request. *)
Module Grant.
Record t : Type := mk {
  client_id : string;
  client_secret : string;
  refresh_token : string;
  grant_type : string
}.
End Grant.

(** The arguments of a [fetch] call. *)
Record Request : Type := mkRequest {
  url : string;
  method : Method;
  headers : list (string * string);
  body : option Grant.t
}.

(** The environment answers the program's questions.  Its answers are
    indexed by the number of questions asked before (clock readings and
    fetches together), so an environment is any sequence of answers. *)
Record Environment : Type := mkEnvironment {
  clock : nat -> Z;                          (* [Date.now()], milliseconds *)
  tokenEndpoint : nat -> Settled TokenData;  (* POST /oauth/token *)
  apiEndpoint : nat -> Settled Json          (* GET /api/v3/... *)
}.

(** ** Program state *)

(** An entry of [StravaClient.cache]. *)
Record CacheEntry : Type := mkCacheEntry {
  data : Json;
  timestamp : Z
}.

(** An argument of [console.log]. *)
Inductive LogArg : Type :=
| LStr (s : string)
| LNum (n : number).

Record World : Type := mkWorld {
  tokenManager : TokenManager;       (* the [TokenManager] instance *)
  cache : gmap string CacheEntry;    (* [StravaClient.cache] *)
  steps : nat;                       (* questions asked to the environment *)
  sent : list Request;               (* requests given to [fetch], oldest first *)
  console : list (list LogArg);      (* lines of [console.log], oldest first *)
  tokenCalls : nat                   (* ghost: calls of [getValidToken] *)
}.

Definition withTokenManager (tm : TokenManager) (w : World) : World :=
  mkWorld tm (cache w) (steps w) (sent w) (console w) (tokenCalls w).
Definition withCache (c : gmap string CacheEntry) (w : World) : World :=
  mkWorld (tokenManager w) c (steps w) (sent w) (console w) (tokenCalls w).
Definition asked (w : World) : World :=
  mkWorld (tokenManager w) (cache w) (S (steps w)) (sent w) (console w) (tokenCalls w).
Definition sending (req : Request) (w : World) : World :=
  mkWorld (tokenManager w) (cache w) (steps w) (sent w ++ [req]) (console w) (tokenCalls w).
Definition logging (line : list LogArg) (w : World) : World :=
  mkWorld (tokenManager w) (cache w) (steps w) (sent w) (console w ++ [line]) (tokenCalls w).
Definition countingTokenCall (w : World) : World :=
  mkWorld (tokenManager w) (cache w) (steps w) (sent w) (console w) (S (tokenCalls w)).

(** ** The monad of the program: state and exceptions

    An [await] is a bind; an exception ends the computation and keeps the
    state reached so far. *)

Definition M (A : Type) : Type := World -> Outcome A * World.

Definition ret {A} (a : A) : M A := fun w => (Returns a, w).

Definition throw {A} (e : Exn) : M A := fun w => (Throws e, w).

Definition bind {A B} (m : M A) (k : A -> M B) : M B :=
  fun w =>
    match m w with
    | (Returns a, w') => k a w'
    | (Throws e, w') => (Throws e, w')
    end.

Declare Scope js_scope.
Delimit Scope js_scope with js.
Notation "'let*' x ':=' m 'in' k" := (bind m (fun x => k))
  (at level 10, x name, m at level 100, k at level 200) : js_scope.
Notation "m '>>' k" := (bind m (fun _ => k))
  (at level 100, k at level 200, right associativity) : js_scope.
Local Open Scope js_scope.

Definition getTokenManager : M TokenManager := fun w => (Returns (tokenManager w), w).

Definition setAccessToken (v : string) : M unit :=
  fun w =>
    let this := tokenManager w in
    (Returns tt,
     withTokenManager
       (mkTokenManager v (refreshToken this) (expiresAt this) (clientId this) (clientSecret this)) w).

Definition setRefreshToken (v : string) : M unit :=
  fun w =>
    let this := tokenManager w in
    (Returns tt,
     withTokenManager
       (mkTokenManager (accessToken this) v (expiresAt this) (clientId this) (clientSecret this)) w).

Definition setExpiresAt (v : number) : M unit :=
  fun w =>
    let this := tokenManager w in
    (Returns tt,
     withTokenManager
       (mkTokenManager (accessToken this) (refreshToken this) v (clientId this) (clientSecret this)) w).

Definition console_log (line : list LogArg) : M unit :=
  fun w => (Returns tt, logging line w).

(** [response.text()] *)
Definition response_text {A} (r : Response A) : M string := ret (text r).

(** [response.json()] *)
Definition response_json {A} (r : Response A) : M A :=
  match json r with
  | Some d => ret d
  | None => throw JsonSyntaxError
  end.

(** [URLSearchParams], for the names and values the client gives it:
    the four parameter names and decimal integers, none of which has a
    character that [toString()] would percent-encode. *)
Module URLSearchParams.
Definition t : Type := list (string * string).

(** [new URLSearchParams()] *)
Definition empty : t := [].

(** [query.append(name, value)] *)
Definition append (name value : string) (query : t) : t := query ++ [(name, value)].

(** [query.toString()] *)
Definition toString (query : t) : string :=
  String.concat "&" ((fun pair => pair.1 +:+ "=" +:+ pair.2) <$> query).
End URLSearchParams.

(** The argument of [StravaClient.getActivities]. *)
Record ActivitiesParams : Type := mkActivitiesParams {
  before : option Z;
  after : option Z;
  page : option Z;
  per_page : option Z
}.

(** [if (v) query.append(name, v.toString())] for [v : number | undefined]:
    a number that is absent or 0 is falsy.  The decimal rendering is what
    [toString()] prints for an integer of at most 2^53 in size (from 10^21
    on JavaScript prints an exponent, which is not modelled). *)
Definition appendIfTruthy (name : string) (v : option Z) (query : URLSearchParams.t)
  : URLSearchParams.t :=
  match v with
  | Some n => if n =? 0 then query else URLSearchParams.append name (pretty n) query
  | None => query
  end.

Section Program.

Variable env : Environment.

(** [Date.now()] *)
Definition Date_now : M Z :=
  fun w => (Returns (clock env (steps w)), asked w).

(** [fetch(url, init)], answered by [endpoint]. *)
Definition fetch {A} (endpoint : Environment -> nat -> Settled A) (req : Request)
  : M (Response A) :=
  fun w =>
    match endpoint env (steps w) with
    | Fulfilled r => (Returns r, asked (sending req w))
    | Rejected reason => (Throws (FetchError reason), asked (sending req w))
    end.

(** *** [TokenManager] *)

Definition refreshRequest (this : TokenManager) : Request :=
  {| url := "https://www.strava.com/oauth/token";
     method := POST;
     headers := [("Content-Type", "application/json")];
     body := Some {| Grant.client_id := clientId this;
                     Grant.client_secret := clientSecret this;
                     Grant.refresh_token := refreshToken this;
                     Grant.grant_type := "refresh_token" |} |}.

(** [private async refresh(): Promise<void>] *)
Definition refresh : M unit :=
  console_log [LStr "Refreshing Strava access token..."] >>
  let* this := getTokenManager in
  let* response := fetch tokenEndpoint (refreshRequest this) in
  if negb (ok response) then
    let* error := response_text response in
    throw (Error ("Failed to refresh token: " +:+ pretty (status response) +:+ " " +:+ error))
  else
    let* data := response_json response in
    setAccessToken (access_token data) >>
    setRefreshToken (refresh_token data) >>
    setExpiresAt (expires_at data) >>
    console_log [LStr "Token refreshed successfully"] >>
    console_log [LStr "New tokens (update Railway env vars if needed):"] >>
    let* this := getTokenManager in
    console_log [LStr "STRAVA_ACCESS_TOKEN:"; LStr (accessToken this)] >>
    console_log [LStr "STRAVA_REFRESH_TOKEN:"; LStr (refreshToken this)] >>
    console_log [LStr "STRAVA_EXPIRES_AT:"; LNum (expiresAt this)].

Definition oneHour : Z := 60 * 60.

(** [async getValidToken(): Promise<string>] *)
Definition getValidToken : M string :=
  (fun w => (Returns tt, countingTokenCall w)) >>
  let* now := Date_now in
  let currentTime := Num (now `div` 1000) in
  let* this := getTokenManager in
  (if gt currentTime (sub (expiresAt this) (Num oneHour)) then refresh else ret tt) >>
  let* this := getTokenManager in
  ret (accessToken this).

(** *** [StravaClient] *)

Definition baseUrl : string := "https://www.strava.com/api/v3".

Definition cacheDuration : Z := 5 * 60 * 1000.

Definition dataRequest (endpoint token : string) : Request :=
  {| url := baseUrl +:+ endpoint;
     method := GET;
     headers := [("Authorization", "Bearer " +:+ token)];
     body := None |}.

(** The cache check at the head of [request]:
    [const cached = this.cache.get(cacheKey);
     if (cached && Date.now() - cached.timestamp < this.cacheDuration)].
    The clock is read only when there is an entry.  The answer is the
    payload on a hit and [None] on a miss. *)
Definition cacheGet (cacheKey : string) : M (option Json) :=
  fun w =>
    match cache w !! cacheKey with
    | Some cached =>
        (let* now := Date_now in
         if now - timestamp cached <? cacheDuration
         then ret (Some (data cached))
         else ret None) w
    | None => (Returns None, w)
    end.

(** The store at the end of [request]:
    [this.cache.set(cacheKey, { data, timestamp: Date.now() })]. *)
Definition cachePut (cacheKey : string) (data : Json) : M unit :=
  let* now := Date_now in
  fun w => (Returns tt, withCache (<[cacheKey := mkCacheEntry data now]> (cache w)) w).

(** [private async request<T>(endpoint: string, useCache = true): Promise<T>] *)
Definition request (endpoint : string) (useCache : bool) : M Json :=
  let cacheKey := endpoint in
  let* hit := (if useCache then cacheGet cacheKey else ret None) in
  match hit with
  | Some cachedData =>
      console_log [LStr ("Cache hit for " +:+ endpoint)] >>
      ret cachedData
  | None =>
      let* token := getValidToken in
      let url := baseUrl +:+ endpoint in
      console_log [LStr ("Fetching: " +:+ url)] >>
      let* response := fetch apiEndpoint (dataRequest endpoint token) in
      if negb (ok response) then
        let* error := response_text response in
        throw (Error ("Strava API error: " +:+ pretty (status response) +:+ " " +:+ error))
      else
        let* data := response_json response in
        (if useCache then cachePut cacheKey data else ret tt) >>
        ret data
  end.

(** [clearCache(): void] *)
Definition clearCache : M unit :=
  fun w => (Returns tt, withCache ∅ w).

(** The endpoints of the four methods; each is the cache key of its
    method. *)
Definition activitiesEndpoint (params : ActivitiesParams) : string :=
  let query := URLSearchParams.empty in
  let query := appendIfTruthy "before" (before params) query in
  let query := appendIfTruthy "after" (after params) query in
  let query := appendIfTruthy "page" (page params) query in
  let query := appendIfTruthy "per_page" (per_page params) query in
  "/athlete/activities?" +:+ URLSearchParams.toString query.

Definition activityEndpoint (activityId : string) : string :=
  "/activities/" +:+ activityId.

Definition athleteStatsEndpoint (athleteId : string) : string :=
  "/athletes/" +:+ athleteId +:+ "/stats".

Definition athleteEndpoint : string := "/athlete".

(** [async getActivities(params): Promise<StravaActivity[]>] *)
Definition getActivities (params : ActivitiesParams) : M Json :=
  let endpoint := activitiesEndpoint params in
  request endpoint true.

(** [async getActivity(activityId: string): Promise<StravaActivityDetails>] *)
Definition getActivity (activityId : string) : M Json :=
  request (activityEndpoint activityId) true.

(** [async getAthleteStats(athleteId: string): Promise<StravaAthleteStats>] *)
Definition getAthleteStats (athleteId : string) : M Json :=
  request (athleteStatsEndpoint athleteId) true.

(** [async getLoggedInAthlete(): Promise<{ id: number }>] *)
Definition getLoggedInAthlete : M Json :=
  request athleteEndpoint true.

End Program.

(** ** [index.ts]: the buffer of recent webhook events *)

Module Webhook.

Record WebhookEvent : Type := mkWebhookEvent {
  type : string;
  activityId : Z;
  athleteId : Z;
  timestamp : Z;
  eventTime : Z
}.

(** [Array.prototype.pop()], for its effect. *)
Definition pop {A} (a : list A) : list A := removelast a.

(** [Array.prototype.slice(0, end)] for an integer [end]: a negative
    [end] counts from the end of the array. *)
Definition slice0 {A} (a : list A) (end_ : Z) : list A :=
  let len := Z.of_nat (length a) in
  let final := if end_ <? 0 then Z.max (len + end_) 0 else Z.min end_ len in
  take (Z.to_nat final) a.

(** [addWebhookEvent(type, activityId, athleteId, eventTime)], on the
    array [recentEvents]; [now] is the reading of [Date.now()]. *)
Definition addWebhookEvent (now : Z) (type : string) (activityId athleteId eventTime : Z)
    (recentEvents : list WebhookEvent) : list WebhookEvent :=
  let recentEvents :=
    mkWebhookEvent type activityId athleteId now (eventTime * 1000) :: recentEvents in
  if 100 <? Z.of_nat (length recentEvents) then pop recentEvents else recentEvents.

(** An event as the tool reports it.  The two dates are kept as the
    instants that [toISOString] prints. *)
Record FormattedEvent : Type := mkFormattedEvent {
  reportedType : string;
  reportedActivityId : Z;
  reportedAthleteId : Z;
  reportedEventTime : Z;
  receivedAt : Z
}.

(** The largest time value of a [Date]: 8.64e15 milliseconds either side
    of the epoch. *)
Definition maxTimeValue : Z := 8640000000000000.

(** [new Date(t).toISOString()] for a whole number [t] of milliseconds:
    the instant that is printed, or [None] when the time value is out of
    range and [toISOString] throws [RangeError: Invalid time value]. *)
Definition toISOString (t : Z) : option Z :=
  if Z.abs t <=? maxTimeValue then Some t else None.

(** The callback of [events.map]; [None] when one of its two
    [toISOString] calls throws. *)
Definition format (event : WebhookEvent) : option FormattedEvent :=
  eventTime ← toISOString (eventTime event);
  receivedAt ← toISOString (timestamp event);
  Some (mkFormattedEvent (type event) (activityId event) (athleteId event)
          eventTime receivedAt).

(** The object that the tool serializes. *)
Record Report : Type := mkReport {
  count : nat;
  events : list FormattedEvent
}.

(** What the tool handler returns: the content, or the answer of its
    [catch], [{ content: [{ type: 'text', text }], isError: true }]. *)
Inductive ToolResult : Type :=
| Content (report : Report)
| IsError (text : string).

(** The case ['strava_get_recent_events'] of the tool handler;
    [limitArg] is [args?.limit], absent or a number.  An exception of
    [toISOString] is caught by the handler, which answers
    [`Error: ${error.message}`]. *)
Definition getRecentEvents (limitArg : option Z) (recentEvents : list WebhookEvent)
  : ToolResult :=
  let limit :=
    match limitArg with
    | Some n => if n =? 0 then 10 else n      (* [limit || 10]: 0 is falsy *)
    | None => 10
    end in
  let events := slice0 recentEvents (Z.min limit 100) in
  match mapM format events with
  | Some formattedEvents => Content (mkReport (length formattedEvents) formattedEvents)
  | None => IsError "Error: Invalid time value"
  end.

(** An event whose two dates [toISOString] can print, what the tool
    reports for such an event, and the report of a list of them. *)
Definition datesInRange (event : WebhookEvent) : Prop :=
  Z.abs (eventTime event) <= maxTimeValue ∧ Z.abs (timestamp event) <= maxTimeValue.

Definition rendered (event : WebhookEvent) : FormattedEvent :=
  mkFormattedEvent (type event) (activityId event) (athleteId event)
    (eventTime event) (timestamp event).

Definition reportOf (events : list WebhookEvent) : Report :=
  mkReport (length events) (rendered <$> events).

(** The arguments of one call of [addWebhookEvent], with the clock. *)
Record Call : Type := mkCall {
  callNow : Z;
  callType : string;
  callActivityId : Z;
  callAthleteId : Z;
  callEventTime : Z
}.

Definition eventOf (c : Call) : WebhookEvent :=
  mkWebhookEvent (callType c) (callActivityId c) (callAthleteId c)
    (callNow c) (callEventTime c * 1000).

(** The buffer after a sequence of calls, the first call first, from the
    empty array the module starts with. *)
Definition runCalls (calls : list Call) : list WebhookEvent :=
  foldl (fun recentEvents c =>
           addWebhookEvent (callNow c) (callType c) (callActivityId c)
             (callAthleteId c) (callEventTime c) recentEvents)
        [] calls.

(** The buffer after one call, and what the tool answers for it. *)
Definition oneEvent : list WebhookEvent :=
  runCalls [mkCall 1700000000000 "create" 12345678 134815 1549560669].

(** *** The webhook endpoints

    Of the effects of the two handlers, the reply and the buffer are
    modelled; what they print on the console is not. *)

(** The body of an event that Strava posts, as the comment in the handler
    describes it. *)
Record StravaEvent : Type := mkStravaEvent {
  aspect_type : string;
  event_time : Z;
  object_id : Z;
  object_type : string;
  owner_id : Z
}.

(** [res.status(code).send(body)] *)
Record Reply : Type := mkReply {
  replyStatus : Z;
  replyBody : string
}.

(** [app.post('/webhook/strava', ...)], on the array [recentEvents];
    [now] is the reading of [Date.now()].  An [object_id] of 0 is falsy. *)
Definition postWebhook (now : Z) (event : StravaEvent) (recentEvents : list WebhookEvent)
  : Reply * list WebhookEvent :=
  let recentEvents :=
    if bool_decide (object_type event = "activity") && negb (object_id event =? 0) then
      addWebhookEvent now (aspect_type event) (object_id event) (owner_id event)
        (event_time event) recentEvents
    else if bool_decide (object_type event = "athlete") then
      recentEvents
    else
      recentEvents in
  (mkReply 200 "EVENT_RECEIVED", recentEvents).

(** The posts of a process, the first one first, each with the reading of
    the clock; the buffer after them. *)
Definition runPosts (posts : list (Z * StravaEvent)) : list WebhookEvent :=
  foldl (fun recentEvents post => (postWebhook post.1 post.2 recentEvents).2) [] posts.

(** The posts that reach the buffer, and the entry each one leaves. *)
Definition buffered (post : Z * StravaEvent) : bool :=
  bool_decide (object_type post.2 = "activity") && negb (object_id post.2 =? 0).

Definition entryOf (post : Z * StravaEvent) : WebhookEvent :=
  mkWebhookEvent (aspect_type post.2) (object_id post.2) (owner_id post.2)
    post.1 (event_time post.2 * 1000).

(** A value of [req.query]: absent, a string, or an array or object. *)
Inductive QueryValue : Type :=
| QAbsent
| QString (s : string)
| QOther.

(** [q === v] for a query value [q] and [v : string | undefined]. *)
Definition strictEq (q : QueryValue) (v : option string) : bool :=
  match q, v with
  | QAbsent, None => true
  | QString s, Some s' => bool_decide (s = s')
  | _, _ => false
  end.

(** The reply of the verification endpoint: the challenge echoed in
    [{ 'hub.challenge': challenge }], or [403 Forbidden]. *)
Inductive Verification : Type :=
| Echo (challenge : QueryValue)
| Forbidden.

(** [app.get('/webhook/strava', ...)]; [mode], [token] and [challenge]
    are [req.query['hub.mode']], [req.query['hub.verify_token']] and
    [req.query['hub.challenge']]. *)
Definition getWebhook (env : ProcessEnv) (mode token challenge : QueryValue)
  : Verification :=
  if strictEq mode (Some "subscribe") && strictEq token (env !! "WEBHOOK_VERIFY_TOKEN")
  then Echo challenge
  else Forbidden.

End Webhook.

(** ** [tools/search-activities.ts]: the rendering of a duration *)

Module SearchActivities.

(** [s.padStart(2, '0')] *)
Definition padStart2 (s : string) : string :=
  match String.length s with
  | 0%nat => "00"
  | 1%nat => "0" +:+ s
  | _ => s
  end.

(** [function formatDuration(seconds: number): string], for a whole number
    of seconds of at most 2^53 in size, where the divisions of the code
    (on doubles, then [Math.floor]) give the integer quotients; [%] is the
    remainder that has the sign of the dividend. *)
Definition formatDuration (seconds : Z) : string :=
  let hours := seconds `div` 3600 in
  let minutes := (seconds `rem` 3600) `div` 60 in
  let secs := seconds `rem` 60 in
  if 0 <? hours then
    pretty hours +:+ "h " +:+ pretty minutes +:+ "m"
  else
    pretty minutes +:+ ":" +:+ padStart2 (pretty secs).

End SearchActivities.

(** ** Vocabulary of the properties, and sample values *)

(** The variable [name] is set in the environment, to a non-empty value. *)
Definition isSet (env : ProcessEnv) (name : string) : Prop :=
  ∃ v, env !! name = Some v ∧ v ≠ "".

(** The four variables the constructor insists on. *)
Definition configured (env : ProcessEnv) : Prop :=
  isSet env "STRAVA_CLIENT_ID" ∧ isSet env "STRAVA_CLIENT_SECRET" ∧
  isSet env "STRAVA_ACCESS_TOKEN" ∧ isSet env "STRAVA_REFRESH_TOKEN".

(** An integer that a double holds exactly and that [toString()] prints
    digit by digit: at most 2^53 in size. *)
Definition safeInteger (n : Z) : Prop := - 2 ^ 53 <= n <= 2 ^ 53.

(** A letter of the ASCII alphabet. *)
Definition isAsciiLetter (c : ascii) : bool :=
  let n := Z.of_N (N_of_ascii c) in
  ((65 <=? n) && (n <=? 90)) || ((97 <=? n) && (n <=? 122)).

(** An environment with everything but the expiry timestamp. *)
Definition envWithoutExpiry : ProcessEnv :=
  <["STRAVA_CLIENT_ID" := "4711"]>
  (<["STRAVA_CLIENT_SECRET" := "s3cret"]>
  (<["STRAVA_ACCESS_TOKEN" := "access-0"]>
  (<["STRAVA_REFRESH_TOKEN" := "refresh-0"]> ∅))).

(** A complete environment. *)
Definition envComplete : ProcessEnv :=
  <["STRAVA_EXPIRES_AT" := "1700003600"]> envWithoutExpiry.

(** The credential store built from [envComplete], which expires at
    1700003600, and the world of a process that has just started with it. *)
Definition sampleTokenManager : TokenManager :=
  mkTokenManager "access-0" "refresh-0" (Num 1700003600) "4711" "s3cret".

Definition sampleWorld : World := mkWorld sampleTokenManager ∅ 0 [] [] 0.

(** Answers of the token endpoint: a rotated token pair, and a refusal. *)
Definition rotatedTokens : TokenData :=
  mkTokenData "access-1" "refresh-1" (Num 1700025200).

Definition tokenGranted : Response TokenData :=
  mkResponse 200 "(token pair)" (Some rotatedTokens).

Definition tokenRefused : Response TokenData :=
  mkResponse 401 "Authorization Error" None.

(** Answers of the data API. *)
Definition athlete : Json := JObject [("id", JNumber 134815 0)].

Definition athleteFound : Response Json := mkResponse 200 "(athlete)" (Some athlete).

Definition rateLimited : Response Json := mkResponse 429 "Rate Limit Exceeded" None.

(** The environment whose clock reads [start] first and [step] more at
    each further question, and whose servers always give the same
    answers. *)
Definition ticking (start step : Z) (token : Settled TokenData) (api : Settled Json)
  : Environment :=
  mkEnvironment (fun n => start + Z.of_nat n * step) (fun _ => token) (fun _ => api).

(** A world whose cache holds the athlete, stored at 1699999900000. *)
Definition warmWorld : World :=
  withCache (<["/athlete" := mkCacheEntry athlete 1699999900000]> ∅) sampleWorld.

(** Environments with a clock that stands at 1700000000000 or at
    1700000001000 (one second after the sample token enters its last
    hour). *)
Definition steadyEnv : Environment :=
  ticking 1700000000000 0 (Rejected "offline") (Fulfilled athleteFound).

Definition grantingEnv : Environment :=
  ticking 1700000001000 0 (Fulfilled tokenGranted) (Fulfilled athleteFound).

Definition refusingEnv : Environment :=
  ticking 1700000001000 0 (Fulfilled tokenRefused) (Fulfilled athleteFound).

Definition offlineEnv : Environment :=
  ticking 1700000000000 0 (Rejected "offline") (Rejected "offline").

Definition limitingEnv : Environment :=
  ticking 1700000000000 0 (Rejected "offline") (Fulfilled rateLimited).

(** An expiry that is not a number, and none at all. *)
Definition envUnreadableExpiry : ProcessEnv :=
  <["STRAVA_EXPIRES_AT" := "soon"]> envComplete.

Definition worldWith (tm : TokenManager) : World := mkWorld tm ∅ 0 [] [] 0.

(** A world whose cache holds an old answer for the athlete, stored at
    1699999000000. *)
Definition staleWorld : World :=
  withCache (<["/athlete" := mkCacheEntry JNull 1699999000000]> ∅) sampleWorld.

(** A post of an activity and a post about the athlete. *)
Definition activityCreated : Webhook.StravaEvent :=
  Webhook.mkStravaEvent "create" 1549560669 12345678 "activity" 134815.

Definition athleteUpdated : Webhook.StravaEvent :=
  Webhook.mkStravaEvent "update" 1549560670 134815 "athlete" 134815.

(** * Properties *)

(** ** [parseInt] on sample inputs *)

Example parseInt_decimal : parseInt "1700003600" = Num 1700003600.
Proof. reflexivity. Qed.
Example parseInt_prefix : parseInt "  -42abc" = Num (-42).
Proof. reflexivity. Qed.
Example parseInt_hex : parseInt "0x1F" = Num 31.
Proof. reflexivity. Qed.
Example parseInt_nan : parseInt "soon" = NaN.
Proof. reflexivity. Qed.

(** ** Construction of the credential store *)

Lemma truthy_spec s : truthy s = true ↔ s ≠ "".
Proof.
  unfold truthy. rewrite negb_true_iff, bool_decide_eq_false. done.
Qed.

Lemma truthy_orElse (env : ProcessEnv) (name : string) :
  truthy (orElse (env !! name) "") = true ↔ isSet env name.
Proof.
  unfold orElse, isSet. destruct (env !! name) as [v|] eqn:Hv.
  - destruct (truthy v) eqn:Ht.
    + split; [|done]. intros _. exists v. split; [done|]. by apply truthy_spec.
    + split; [done|]. intros (v' & [= <-] & Hne). apply truthy_spec in Hne. congruence.
  - split; [done|]. by intros (v' & ? & _).
Qed.

Lemma orElse_isSet (env : ProcessEnv) (name v d : string) :
  env !! name = Some v → v ≠ "" → orElse (env !! name) d = v.
Proof.
  intros -> Hne. unfold orElse. apply truthy_spec in Hne. by rewrite Hne.
Qed.

(** C5, as stated, fails: with the client identity and the token pair set
    and [STRAVA_EXPIRES_AT] absent, the constructor does not fail; it builds
    a credential store whose expiry is 0. *)
Lemma constructor_without_expiry_succeeds :
  envWithoutExpiry !! "STRAVA_EXPIRES_AT" = None ∧
  constructor envWithoutExpiry =
    Returns (mkTokenManager "access-0" "refresh-0" (Num 0) "4711" "s3cret").
Proof. split; by vm_compute. Qed.

(** C5, amended: the constructor fails with a configuration error whenever
    one of the four variables for the client identifier, the client secret,
    the initial access token and the initial refresh token is absent (or
    empty), and succeeds exactly when the four are set; the expiry
    timestamp is not required and is read as [parseInt] of the variable,
    of ["0"] when it is absent or empty. *)
Theorem constructor_requires_client_and_tokens (env : ProcessEnv) :
  (configured env →
   ∃ tm, constructor env = Returns tm ∧
         env !! "STRAVA_CLIENT_ID" = Some (clientId tm) ∧
         env !! "STRAVA_CLIENT_SECRET" = Some (clientSecret tm) ∧
         env !! "STRAVA_ACCESS_TOKEN" = Some (accessToken tm) ∧
         env !! "STRAVA_REFRESH_TOKEN" = Some (refreshToken tm) ∧
         expiresAt tm = parseInt (orElse (env !! "STRAVA_EXPIRES_AT") "0")) ∧
  (¬ configured env → ∃ message, constructor env = Throws (Error message)).
Proof.
  split.
  - intros ((ci & Hci & Nci) & (cs & Hcs & Ncs) & (at_ & Hat & Nat) & (rt & Hrt & Nrt)).
    unfold constructor.
    rewrite (orElse_isSet _ _ _ _ Hci Nci), (orElse_isSet _ _ _ _ Hcs Ncs),
      (orElse_isSet _ _ _ _ Hat Nat), (orElse_isSet _ _ _ _ Hrt Nrt).
    apply truthy_spec in Nci, Ncs, Nat, Nrt. rewrite Nci, Ncs, Nat, Nrt. simpl.
    eexists. split; [done|]. simpl. done.
  - intros Hnot. unfold constructor.
    destruct (truthy (orElse (env !! "STRAVA_CLIENT_ID") "")) eqn:Hci; simpl;
      [|by eexists].
    destruct (truthy (orElse (env !! "STRAVA_CLIENT_SECRET") "")) eqn:Hcs; simpl;
      [|by eexists].
    destruct (truthy (orElse (env !! "STRAVA_ACCESS_TOKEN") "")) eqn:Hat; simpl;
      [|by eexists].
    destruct (truthy (orElse (env !! "STRAVA_REFRESH_TOKEN") "")) eqn:Hrt; simpl;
      [|by eexists].
    exfalso. apply Hnot. unfold configured. by rewrite <- !truthy_orElse.
Qed.

Lemma constructor_requires_client_and_tokens_witness :
  ∃ tm, constructor envComplete = Returns tm ∧
        envComplete !! "STRAVA_CLIENT_ID" = Some (clientId tm) ∧
        envComplete !! "STRAVA_CLIENT_SECRET" = Some (clientSecret tm) ∧
        envComplete !! "STRAVA_ACCESS_TOKEN" = Some (accessToken tm) ∧
        envComplete !! "STRAVA_REFRESH_TOKEN" = Some (refreshToken tm) ∧
        expiresAt tm = parseInt (orElse (envComplete !! "STRAVA_EXPIRES_AT") "0").
Proof.
  apply (proj1 (constructor_requires_client_and_tokens envComplete)).
  repeat split; eexists; (split; [by vm_compute | discriminate]).
Defined.

(** ** The token lifecycle *)

Section TokenLifecycle.

Variable env : Environment.

(** What [refresh] does apart from the credentials: it sends exactly the
    refresh request, whatever the answer, and leaves the cache alone. *)
Lemma refresh_frame (w : World) :
  let w' := (refresh env w).2 in
  sent w' = sent w ++ [refreshRequest (tokenManager w)] ∧
  cache w' = cache w ∧ tokenCalls w' = tokenCalls w ∧ steps w' = S (steps w).
Proof.
  unfold refresh, bind, fetch, console_log, getTokenManager. simpl.
  destruct (tokenEndpoint env (steps w)) as [r|reason]; simpl; [|done].
  destruct (ok r); simpl; [|done].
  unfold response_json. destruct (json r); simpl; done.
Qed.

(** The run of [refresh] on an answer that is accepted. *)
Lemma refresh_accepted (w : World) (r : Response TokenData) (d : TokenData) :
  tokenEndpoint env (steps w) = Fulfilled r →
  ok r = true →
  json r = Some d →
  ∃ w',
    refresh env w = (Returns tt, w') ∧
    tokenManager w' =
      mkTokenManager (access_token d) (refresh_token d) (expires_at d)
        (clientId (tokenManager w)) (clientSecret (tokenManager w)).
Proof.
  intros Hfetch Hok Hjson. eexists.
  unfold refresh, bind, fetch, console_log, getTokenManager, response_json. simpl.
  rewrite Hfetch. simpl. rewrite Hok. simpl. rewrite Hjson. simpl.
  split; reflexivity.
Qed.

(** C3: when the token endpoint answers with a status outside 200-299,
    [refresh] throws an error whose message carries the status and the
    body of the response, and the credential store (access token, refresh
    token, expiry, and the client identity) is what it was before. *)
Theorem refresh_failure_keeps_credentials (w : World) (r : Response TokenData) :
  tokenEndpoint env (steps w) = Fulfilled r →
  ok r = false →
  ∃ w',
    refresh env w =
      (Throws (Error ("Failed to refresh token: " +:+ pretty (status r) +:+ " " +:+ text r)), w') ∧
    tokenManager w' = tokenManager w ∧
    accessToken (tokenManager w') = accessToken (tokenManager w) ∧
    refreshToken (tokenManager w') = refreshToken (tokenManager w) ∧
    expiresAt (tokenManager w') = expiresAt (tokenManager w).
Proof.
  intros Hfetch Hok. eexists.
  unfold refresh, bind, fetch, console_log, getTokenManager. simpl.
  rewrite Hfetch. simpl. rewrite Hok. simpl. done.
Qed.

(** C4: when the token endpoint answers with a status in 200-299 and a
    body that parses, [refresh] completes and the credential store holds
    the access token, the refresh token and the expiry of the body, all
    three replaced; the client identity is kept.  A refresh token that
    differs from the stored one therefore replaces it. *)
Theorem refresh_success_replaces_credentials
    (w : World) (r : Response TokenData) (d : TokenData) :
  tokenEndpoint env (steps w) = Fulfilled r →
  ok r = true →
  json r = Some d →
  ∃ w',
    refresh env w = (Returns tt, w') ∧
    tokenManager w' =
      mkTokenManager (access_token d) (refresh_token d) (expires_at d)
        (clientId (tokenManager w)) (clientSecret (tokenManager w)) ∧
    (refresh_token d ≠ refreshToken (tokenManager w) →
     refreshToken (tokenManager w') ≠ refreshToken (tokenManager w)).
Proof.
  intros Hfetch Hok Hjson.
  destruct (refresh_accepted w r d) as (w' & Hrun & Htm); [done..|].
  exists w'. split; [done|]. split; [done|].
  rewrite Htm. simpl. done.
Qed.

(** C1: when the clock, in seconds, is at most [expiresAt - 3600],
    [getValidToken] returns the stored access token; it sends nothing to
    the network and the credential store and the cache are untouched (the
    only traces are the clock reading and the call itself). *)
Theorem getValidToken_fresh (w : World) (e : Z) :
  expiresAt (tokenManager w) = Num e →
  clock env (steps w) `div` 1000 <= e - 3600 →
  getValidToken env w =
    (Returns (accessToken (tokenManager w)), asked (countingTokenCall w)) ∧
  tokenManager (asked (countingTokenCall w)) = tokenManager w ∧
  sent (asked (countingTokenCall w)) = sent w ∧
  cache (asked (countingTokenCall w)) = cache w.
Proof.
  intros He Hnow. split; [|done].
  unfold getValidToken, bind, Date_now, getTokenManager. simpl.
  rewrite He. simpl. unfold oneHour.
  rewrite bool_decide_eq_false_2 by (change (60 * 60) with 3600; lia).
  done.
Qed.

(** C2: when the clock, in seconds, is beyond [expiresAt - 3600],
    [getValidToken] sends exactly one request, the refresh request built
    from the stored credentials, and when the token endpoint answers it
    with a 2xx status and a body that parses, the token returned is the
    [access_token] of that body. *)
Theorem getValidToken_expiring (w : World) (e : Z) :
  expiresAt (tokenManager w) = Num e →
  e - 3600 < clock env (steps w) `div` 1000 →
  sent (getValidToken env w).2 = sent w ++ [refreshRequest (tokenManager w)] ∧
  (∀ r d, tokenEndpoint env (S (steps w)) = Fulfilled r →
          ok r = true → json r = Some d →
          (getValidToken env w).1 = Returns (access_token d)).
Proof.
  intros He Hnow.
  unfold getValidToken, bind, Date_now, getTokenManager. simpl.
  rewrite He. simpl. unfold oneHour.
  rewrite bool_decide_eq_true_2 by (change (60 * 60) with 3600; lia).
  pose proof (refresh_frame (asked (countingTokenCall w))) as (Hsent & _).
  simpl in Hsent.
  split.
  - destruct (refresh env (asked (countingTokenCall w))) as [[[]|ex] w'] eqn:Hr;
      simpl in *; done.
  - intros r d Hfetch Hok Hjson.
    destruct (refresh_accepted (asked (countingTokenCall w)) r d)
      as (w' & Hrun & Htm); [done..|].
    rewrite Hrun. simpl. by rewrite Htm.
Qed.

(** An expiry that is not a number (a [STRAVA_EXPIRES_AT] that [parseInt]
    cannot read) never triggers a refresh: both comparisons of C1 and C2
    are false on [NaN], and the guard of [getValidToken] with them. *)
Lemma getValidToken_nan (w : World) :
  expiresAt (tokenManager w) = NaN →
  getValidToken env w =
    (Returns (accessToken (tokenManager w)), asked (countingTokenCall w)).
Proof.
  intros He. unfold getValidToken, bind, Date_now, getTokenManager. simpl.
  by rewrite He.
Qed.

End TokenLifecycle.

(** ** The caching request executor *)

Section RequestExecutor.

Variable env : Environment.

(** The cache check reads the clock at most; it changes nothing else. *)
Lemma cacheGet_frame (cacheKey : string) (w : World) :
  let w' := (cacheGet env cacheKey w).2 in
  tokenManager w' = tokenManager w ∧ cache w' = cache w ∧ sent w' = sent w ∧
  tokenCalls w' = tokenCalls w ∧ console w' = console w.
Proof.
  unfold cacheGet, bind, Date_now. simpl.
  destruct (cache w !! cacheKey) as [cached|]; simpl; [|done].
  destruct (_ <? _); simpl; done.
Qed.

(** [getValidToken] counts as one token check, sends at most the refresh
    request, and leaves the cache alone. *)
Lemma getValidToken_frame (w : World) :
  let w' := (getValidToken env w).2 in
  cache w' = cache w ∧ tokenCalls w' = S (tokenCalls w) ∧
  (sent w' = sent w ∨ sent w' = sent w ++ [refreshRequest (tokenManager w)]).
Proof.
  unfold getValidToken, bind, Date_now, getTokenManager. cbn -[gt sub refresh].
  destruct (gt _ _).
  - pose proof (refresh_frame env (asked (countingTokenCall w))) as (Hs & Hc & Ht & _).
    destruct (refresh env (asked (countingTokenCall w))) as [[[]|ex] w'];
      simpl in *; rewrite Hs, Hc, Ht; auto.
  - simpl. auto.
Qed.

(** The run of the cache check on a live entry. *)
Lemma cacheGet_hit (cacheKey : string) (w : World) (cached : CacheEntry) :
  cache w !! cacheKey = Some cached →
  clock env (steps w) - timestamp cached < cacheDuration →
  cacheGet env cacheKey w = (Returns (Some (data cached)), asked w).
Proof.
  intros Hget Hage. unfold cacheGet, bind, Date_now, ret. rewrite Hget. simpl.
  destruct (Z.ltb_spec (clock env (steps w) - timestamp cached) cacheDuration);
    [done | lia].
Qed.

(** The run of the cache check on a stale entry. *)
Lemma cacheGet_stale (cacheKey : string) (w : World) (cached : CacheEntry) :
  cache w !! cacheKey = Some cached →
  cacheDuration <= clock env (steps w) - timestamp cached →
  cacheGet env cacheKey w = (Returns None, asked w).
Proof.
  intros Hget Hage. unfold cacheGet, bind, Date_now, ret. rewrite Hget. simpl.
  destruct (Z.ltb_spec (clock env (steps w) - timestamp cached) cacheDuration);
    [lia | done].
Qed.

(** C6: when the cache holds an entry for the endpoint that is younger
    than the TTL, [request] with [useCache] returns the payload of that
    entry; [getValidToken] is not called, nothing is sent to the network,
    and the credential store and the cache are what they were (the only
    traces are the clock reading and a console line). *)
Theorem request_cache_hit (endpoint : string) (w : World) (cached : CacheEntry) :
  cache w !! endpoint = Some cached →
  clock env (steps w) - timestamp cached < cacheDuration →
  ∃ w',
    request env endpoint true w = (Returns (data cached), w') ∧
    tokenCalls w' = tokenCalls w ∧
    sent w' = sent w ∧
    tokenManager w' = tokenManager w ∧
    cache w' = cache w.
Proof.
  intros Hget Hage. eexists.
  unfold request, bind. rewrite (cacheGet_hit _ _ _ Hget Hage). simpl.
  split; [reflexivity|]. done.
Qed.

(** C7: when the cache does not answer, the token manager hands out a
    token and the data API answers with a status outside 200-299,
    [request] throws an error whose message carries the status and the
    body text; the cache is what it was before the call, the data request
    was sent once, and the token manager was asked once (so that at most
    one refresh request precedes the data request). *)
Theorem request_upstream_error
    (endpoint : string) (useCache : bool) (w w0 w1 : World) (token : string)
    (r : Response Json) :
  (if useCache then cacheGet env endpoint else ret None) w = (Returns None, w0) →
  getValidToken env w0 = (Returns token, w1) →
  apiEndpoint env (steps w1) = Fulfilled r →
  ok r = false →
  ∃ w',
    request env endpoint useCache w =
      (Throws (Error ("Strava API error: " +:+ pretty (status r) +:+ " " +:+ text r)), w') ∧
    cache w' = cache w ∧
    sent w' = sent w1 ++ [dataRequest endpoint token] ∧
    tokenCalls w' = S (tokenCalls w) ∧
    (sent w1 = sent w ∨ sent w1 = sent w ++ [refreshRequest (tokenManager w)]).
Proof.
  intros Hmiss Htoken Hfetch Hok. eexists.
  unfold request, bind. rewrite Hmiss, Htoken. simpl.
  unfold fetch. simpl. rewrite Hfetch. simpl. rewrite Hok. simpl.
  split; [reflexivity|]. simpl.
  assert (tokenManager w0 = tokenManager w ∧ cache w0 = cache w ∧ sent w0 = sent w ∧
          tokenCalls w0 = tokenCalls w) as (Htm0 & Hc0 & Hs0 & Ht0).
  { destruct useCache.
    - pose proof (cacheGet_frame endpoint w) as Hf. rewrite Hmiss in Hf.
      simpl in Hf. tauto.
    - injection Hmiss as <-. done. }
  pose proof (getValidToken_frame w0) as Hg. rewrite Htoken in Hg. simpl in Hg.
  destruct Hg as (Hc1 & Ht1 & Hs1).
  rewrite Hc1, Hc0, Ht1, Ht0, <- Htm0, <- Hs0. done.
Qed.

(** A [request] that goes to the network and is answered with a 2xx
    status and a body that parses returns the parsed body and, with
    [useCache], stores it under the endpoint with the clock reading that
    follows the answer: the store of C8 and C9. *)
Lemma request_stores (endpoint : string) (w w0 w1 : World) (token : string)
    (r : Response Json) (v : Json) :
  cacheGet env endpoint w = (Returns None, w0) →
  getValidToken env w0 = (Returns token, w1) →
  apiEndpoint env (steps w1) = Fulfilled r →
  ok r = true →
  json r = Some v →
  ∃ w',
    request env endpoint true w = (Returns v, w') ∧
    w' = (cachePut env endpoint v
            (asked (sending (dataRequest endpoint token)
               (logging [LStr ("Fetching: " +:+ baseUrl +:+ endpoint)] w1)))).2 ∧
    cache w' = <[endpoint := mkCacheEntry v (clock env (S (steps w1)))]> (cache w).
Proof.
  intros Hmiss Htoken Hfetch Hok Hjson. eexists.
  unfold request, bind. rewrite Hmiss, Htoken. simpl.
  unfold fetch, response_json. simpl. rewrite Hfetch. simpl. rewrite Hok. simpl.
  rewrite Hjson. simpl.
  split; [reflexivity|]. split; [reflexivity|]. simpl.
  pose proof (cacheGet_frame endpoint w) as Hf. rewrite Hmiss in Hf. simpl in Hf.
  pose proof (getValidToken_frame w0) as Hg. rewrite Htoken in Hg. simpl in Hg.
  destruct Hf as (_ & Hc0 & _), Hg as (Hc1 & _). by rewrite Hc1, Hc0.
Qed.

(** X11: whatever makes it fail (the token manager, the network, the
    status or the body of the answer), a failed [request] leaves the cache
    alone. *)
Lemma request_failure_keeps_cache (endpoint : string) (useCache : bool)
    (w w' : World) (ex : Exn) :
  request env endpoint useCache w = (Throws ex, w') → cache w' = cache w.
Proof.
  unfold request, bind.
  assert (∃ hit w0, (if useCache then cacheGet env endpoint else ret None) w
                    = (Returns hit, w0) ∧ cache w0 = cache w) as (hit & w0 & -> & Hc0).
  { destruct useCache; [|by eexists _, _].
    pose proof (cacheGet_frame endpoint w) as (_ & Hc & _).
    unfold cacheGet, bind, Date_now, ret in *.
    destruct (cache w !! endpoint); simpl in *; [|by eexists _, _].
    destruct (_ <? _); by eexists _, _. }
  destruct hit as [cachedData|]; simpl; [done|].
  pose proof (getValidToken_frame w0) as (Hc1 & _).
  destruct (getValidToken env w0) as [[token|ex1] w1]; simpl in *;
    [|intros [= _ <-]; congruence].
  unfold fetch. simpl.
  destruct (apiEndpoint env (steps w1)) as [r|reason]; simpl;
    [|intros [= _ <-]; simpl; congruence].
  destruct (ok r); simpl; [|intros [= _ <-]; simpl; congruence].
  unfold response_json. destruct (json r); simpl;
    [|intros [= _ <-]; simpl; congruence].
  destruct useCache; simpl; done.
Qed.

(** C8: the store of a payload [v] under a key [k] replaces whatever the
    cache held for [k] by [v] with the reading of the clock as timestamp;
    a later check of [k], on that entry and before 5 minutes have passed
    on the clock, is a hit that answers [v]. *)
Theorem cache_round_trip (k : string) (v : Json) (w w2 : World) :
  let w1 := (cachePut env k v w).2 in
  cache w1 !! k = Some (mkCacheEntry v (clock env (steps w))) ∧
  (cache w2 !! k = cache w1 !! k →
   clock env (steps w2) - clock env (steps w) < 5 * 60 * 1000 →
   cacheGet env k w2 = (Returns (Some v), asked w2)).
Proof.
  simpl. split; [by rewrite lookup_insert_eq|].
  rewrite lookup_insert_eq. intros Hget Hage.
  by rewrite (cacheGet_hit k w2 _ Hget Hage).
Qed.

(** C9: once 5 minutes or more have passed on the clock since the store
    of [v] under [k], a check of [k] on that entry is a miss, and the
    entry is still in the map after the check. *)
Theorem cache_expiry (k : string) (v : Json) (w w2 : World) :
  let w1 := (cachePut env k v w).2 in
  cache w2 !! k = cache w1 !! k →
  5 * 60 * 1000 <= clock env (steps w2) - clock env (steps w) →
  cacheGet env k w2 = (Returns None, asked w2) ∧
  cache (asked w2) !! k = Some (mkCacheEntry v (clock env (steps w))).
Proof.
  simpl. rewrite lookup_insert_eq. intros Hget Hage.
  split; [|done].
  by rewrite (cacheGet_stale k w2 _ Hget Hage).
Qed.

End RequestExecutor.

(** ** The buffer of recent webhook events *)

Section WebhookBuffer.

Import Webhook.

Lemma addWebhookEvent_take (c : Call) (recentEvents : list WebhookEvent) :
  (length recentEvents <= 100)%nat →
  addWebhookEvent (callNow c) (callType c) (callActivityId c) (callAthleteId c)
    (callEventTime c) recentEvents
  = take 100 (eventOf c :: recentEvents).
Proof.
  intros Hlen. unfold addWebhookEvent, pop. fold (eventOf c).
  destruct (Z.ltb_spec 100 (Z.of_nat (length (eventOf c :: recentEvents)))) as [Hgt|Hle].
  - rewrite removelast_firstn_len. simpl length in *.
    replace (Nat.pred (S (length recentEvents))) with 100%nat by lia. done.
  - simpl length in Hle. rewrite take_ge; [done|]. simpl. lia.
Qed.

Lemma runCalls_take (calls : list Call) :
  runCalls calls = take 100 (reverse (eventOf <$> calls)).
Proof.
  induction calls as [|c calls IH] using rev_ind; [done|].
  unfold runCalls in *. rewrite foldl_snoc, IH.
  rewrite fmap_app, reverse_app. simpl.
  rewrite addWebhookEvent_take by (rewrite length_take; lia).
  change (reverse [eventOf c]) with [eventOf c]. simpl.
  f_equal. rewrite take_take. f_equal.
Qed.

Lemma slice0_take {A} (a : list A) (n : Z) :
  0 <= n → slice0 a n = take (Z.to_nat n) a.
Proof.
  intros Hn. unfold slice0.
  destruct (Z.ltb_spec n 0) as [?|_]; [lia|].
  destruct (Z.le_gt_cases n (Z.of_nat (length a))) as [Hle|Hgt].
  - by rewrite Z.min_l.
  - rewrite Z.min_r by lia. rewrite Nat2Z.id.
    rewrite !take_ge; [done|lia..].
Qed.

(** The formatting of events whose dates are in range, and what its
    failure means. *)
Lemma format_in_range (event : WebhookEvent) :
  datesInRange event → format event = Some (rendered event).
Proof.
  intros [He Ht]. unfold format, toISOString.
  destruct (Z.leb_spec (Z.abs (eventTime event)) maxTimeValue); [|lia].
  destruct (Z.leb_spec (Z.abs (timestamp event)) maxTimeValue); [|lia].
  done.
Qed.


Lemma mapM_format_in_range (events : list WebhookEvent) :
  Forall datesInRange events → mapM format events = Some (rendered <$> events).
Proof.
  induction 1 as [|event events Hevent _ IH]; [done|].
  simpl. rewrite (format_in_range _ Hevent). simpl. by rewrite IH.
Qed.


Lemma getRecentEvents_in_range (limit : Z) (recentEvents : list WebhookEvent) :
  limit ≠ 0 →
  Forall datesInRange (slice0 recentEvents (Z.min limit 100)) →
  getRecentEvents (Some limit) recentEvents
  = Content (reportOf (slice0 recentEvents (Z.min limit 100))).
Proof.
  intros Hlimit Hrange. unfold getRecentEvents.
  destruct (Z.eqb_spec limit 0) as [?|_]; [done|].
  rewrite (mapM_format_in_range _ Hrange). unfold reportOf.
  by rewrite length_fmap.
Qed.

Lemma getRecentEvents_default (limitArg : option Z) (recentEvents : list WebhookEvent) :
  limitArg = None ∨ limitArg = Some 0 →
  Forall datesInRange (take 10 recentEvents) →
  getRecentEvents limitArg recentEvents = Content (reportOf (take 10 recentEvents)).
Proof.
  intros Harg Hrange.
  assert (slice0 recentEvents (Z.min 10 100) = take 10 recentEvents) as Hslice
    by (by rewrite slice0_take).
  unfold getRecentEvents.
  destruct Harg as [-> | ->]; simpl; rewrite Hslice;
    rewrite (mapM_format_in_range _ Hrange); unfold reportOf; by rewrite length_fmap.
Qed.

(** C10, as stated, fails on a limit of 0: the tool does not return the
    first [min(0, 100) = 0] events of a buffer of one event (whose dates
    are in range), it returns that event, since [0 || 10] is 10. *)
Lemma getRecentEvents_limit_zero :
  Forall datesInRange oneEvent ∧
  getRecentEvents (Some 0) oneEvent ≠
    Content (reportOf (take (Z.to_nat (Z.min 0 100)) oneEvent)) ∧
  getRecentEvents (Some 0) oneEvent = Content (reportOf oneEvent) ∧
  length oneEvent = 1%nat.
Proof.
  assert (oneEvent =
            [mkWebhookEvent "create" 12345678 134815 1700000000000 1549560669000])
    as -> by reflexivity.
  split; [|split; [|split]].
  - constructor; [|constructor]. split; simpl; unfold maxTimeValue; lia.
  - vm_compute. intros Heq. discriminate Heq.
  - vm_compute. reflexivity.
  - reflexivity.
Qed.

(** C10, amended: after any sequence of [addWebhookEvent] calls the
    buffer holds the 100 most recent events at most, the newest first
    (each call puts its event in front and drops the oldest beyond 100),
    and the tool returns the first [min(limit, 100)] events of the buffer
    for a limit of 1 or more, and the first 10 when the limit is absent
    or 0, provided the dates of those events are time values that
    [toISOString] can print (at most 8.64e15 ms from the epoch). *)
Theorem recentEvents_bounded_newest_first (calls : list Call) :
  let recentEvents := runCalls calls in
  recentEvents = take 100 (reverse (eventOf <$> calls)) ∧
  (length recentEvents <= 100)%nat ∧
  (∀ c, runCalls (calls ++ [c]) = take 100 (eventOf c :: recentEvents)) ∧
  (∀ limit, 1 <= limit →
     Forall datesInRange (take (Z.to_nat (Z.min limit 100)) recentEvents) →
     getRecentEvents (Some limit) recentEvents
     = Content (reportOf (take (Z.to_nat (Z.min limit 100)) recentEvents))) ∧
  (Forall datesInRange (take 10 recentEvents) →
   getRecentEvents None recentEvents = Content (reportOf (take 10 recentEvents)) ∧
   getRecentEvents (Some 0) recentEvents = Content (reportOf (take 10 recentEvents))).
Proof.
  simpl.
  assert (length (runCalls calls) <= 100)%nat as Hlen.
  { rewrite runCalls_take, length_take. lia. }
  split; [apply runCalls_take|]. split; [done|]. split.
  { intros c. unfold runCalls at 1. rewrite foldl_snoc.
    by apply addWebhookEvent_take. }
  split.
  - intros limit Hlimit Hrange.
    rewrite <- (slice0_take (runCalls calls) (Z.min limit 100)) in * by lia.
    apply getRecentEvents_in_range; [lia|done].
  - intros Hrange. split; apply getRecentEvents_default; auto.
Qed.

End WebhookBuffer.

(** ** Runs of the program *)

Example constructor_complete : constructor envComplete = Returns sampleTokenManager.
Proof. by vm_compute. Qed.

(** An empty variable counts as a missing one. *)
Example constructor_empty_secret :
  constructor (<["STRAVA_CLIENT_SECRET" := ""]> envComplete) =
    Throws (Error "STRAVA_CLIENT_ID and STRAVA_CLIENT_SECRET must be set").
Proof. by vm_compute. Qed.

(** A token about to expire: one refresh request, then one data request
    that carries the refreshed bearer token; the parsed body is returned
    and cached, and the credentials are the rotated ones. *)
Example request_with_expiring_token :
  let env := ticking 1700000001000 0 (Fulfilled tokenGranted) (Fulfilled athleteFound) in
  let '(result, w') := request env "/athlete" true sampleWorld in
  result = Returns athlete ∧
  sent w' = [refreshRequest sampleTokenManager; dataRequest "/athlete" "access-1"] ∧
  tokenManager w' = mkTokenManager "access-1" "refresh-1" (Num 1700025200) "4711" "s3cret" ∧
  cache w' !! "/athlete" = Some (mkCacheEntry athlete 1700000001000).
Proof. by vm_compute. Qed.

(** The token endpoint refuses the refresh: the request fails with the
    error of the refresh, nothing is asked of the data API, and the
    expired access token stays in the store. *)
Example request_with_refused_refresh :
  let env := ticking 1700000001000 0 (Fulfilled tokenRefused) (Fulfilled athleteFound) in
  let '(result, w') := request env "/athlete" true sampleWorld in
  result = Throws (Error "Failed to refresh token: 401 Authorization Error") ∧
  sent w' = [refreshRequest sampleTokenManager] ∧
  tokenManager w' = sampleTokenManager ∧
  cache w' = ∅.
Proof. by vm_compute. Qed.

(** A second request for the same endpoint within five minutes is served
    from the cache: nothing more is sent. *)
Example request_twice :
  let env := ticking 1700000000000 1000 (Rejected "offline") (Fulfilled athleteFound) in
  let '(first, w1) := request env "/athlete" true sampleWorld in
  let '(second, w2) := request env "/athlete" true w1 in
  first = Returns athlete ∧ second = Returns athlete ∧
  sent w2 = [dataRequest "/athlete" "access-0"] ∧ tokenCalls w2 = 1%nat.
Proof. by vm_compute. Qed.

(** The webhook buffer after 101 events holds the last 100, newest first. *)
Example buffer_evicts_oldest :
  let calls := (fun i => Webhook.mkCall 1700000000000 "create" (Z.of_nat i) 134815 1549560669)
                 <$> seq 0 101 in
  length (Webhook.runCalls calls) = 100%nat ∧
  Webhook.activityId <$> take 2 (Webhook.runCalls calls) = [100; 99] ∧
  Webhook.activityId <$> last (Webhook.runCalls calls) = Some 1.
Proof. by vm_compute. Qed.

(** ** The theorems at sample inputs *)

Lemma getValidToken_fresh_witness :
  let env := ticking 1700000000000 0 (Rejected "offline") (Rejected "offline") in
  getValidToken env sampleWorld =
    (Returns "access-0", asked (countingTokenCall sampleWorld)) ∧
  tokenManager (asked (countingTokenCall sampleWorld)) = tokenManager sampleWorld ∧
  sent (asked (countingTokenCall sampleWorld)) = sent sampleWorld ∧
  cache (asked (countingTokenCall sampleWorld)) = cache sampleWorld.
Proof.
  apply (getValidToken_fresh
           (ticking 1700000000000 0 (Rejected "offline") (Rejected "offline"))
           sampleWorld 1700003600).
  - reflexivity.
  - vm_compute. discriminate.
Defined.

Lemma getValidToken_expiring_witness :
  let env := ticking 1700000001000 0 (Fulfilled tokenGranted) (Rejected "offline") in
  sent (getValidToken env sampleWorld).2 = sent sampleWorld ++ [refreshRequest sampleTokenManager] ∧
  (∀ r d, tokenEndpoint env 1%nat = Fulfilled r → ok r = true → json r = Some d →
          (getValidToken env sampleWorld).1 = Returns (access_token d)).
Proof.
  apply (getValidToken_expiring
           (ticking 1700000001000 0 (Fulfilled tokenGranted) (Rejected "offline"))
           sampleWorld 1700003600).
  - reflexivity.
  - vm_compute. reflexivity.
Defined.

Lemma refresh_failure_keeps_credentials_witness :
  ∃ w',
    refresh (ticking 1700000001000 0 (Fulfilled tokenRefused) (Rejected "offline")) sampleWorld =
      (Throws (Error "Failed to refresh token: 401 Authorization Error"), w') ∧
    tokenManager w' = sampleTokenManager ∧
    accessToken (tokenManager w') = "access-0" ∧
    refreshToken (tokenManager w') = "refresh-0" ∧
    expiresAt (tokenManager w') = Num 1700003600.
Proof.
  apply (refresh_failure_keeps_credentials
           (ticking 1700000001000 0 (Fulfilled tokenRefused) (Rejected "offline"))
           sampleWorld tokenRefused); reflexivity.
Defined.

Lemma refresh_success_replaces_credentials_witness :
  ∃ w',
    refresh (ticking 1700000001000 0 (Fulfilled tokenGranted) (Rejected "offline")) sampleWorld =
      (Returns tt, w') ∧
    tokenManager w' =
      mkTokenManager "access-1" "refresh-1" (Num 1700025200) "4711" "s3cret" ∧
    ("refresh-1" ≠ "refresh-0" → refreshToken (tokenManager w') ≠ "refresh-0").
Proof.
  apply (refresh_success_replaces_credentials
           (ticking 1700000001000 0 (Fulfilled tokenGranted) (Rejected "offline"))
           sampleWorld tokenGranted rotatedTokens); reflexivity.
Defined.

Lemma request_cache_hit_witness :
  ∃ w',
    request (ticking 1700000000000 0 (Rejected "offline") (Rejected "offline"))
      "/athlete" true warmWorld = (Returns athlete, w') ∧
    tokenCalls w' = tokenCalls warmWorld ∧
    sent w' = sent warmWorld ∧
    tokenManager w' = tokenManager warmWorld ∧
    cache w' = cache warmWorld.
Proof.
  apply (request_cache_hit
           (ticking 1700000000000 0 (Rejected "offline") (Rejected "offline"))
           "/athlete" warmWorld (mkCacheEntry athlete 1699999900000)).
  - by vm_compute.
  - vm_compute. reflexivity.
Defined.

Lemma request_upstream_error_witness :
  let env := ticking 1700000000000 0 (Rejected "offline") (Fulfilled rateLimited) in
  ∃ w',
    request env "/athlete" true sampleWorld =
      (Throws (Error "Strava API error: 429 Rate Limit Exceeded"), w') ∧
    cache w' = cache sampleWorld ∧
    sent w' = sent (asked (countingTokenCall sampleWorld)) ++ [dataRequest "/athlete" "access-0"] ∧
    tokenCalls w' = S (tokenCalls sampleWorld) ∧
    (sent (asked (countingTokenCall sampleWorld)) = sent sampleWorld ∨
     sent (asked (countingTokenCall sampleWorld)) =
       sent sampleWorld ++ [refreshRequest (tokenManager sampleWorld)]).
Proof.
  apply (request_upstream_error
           (ticking 1700000000000 0 (Rejected "offline") (Fulfilled rateLimited))
           "/athlete" true sampleWorld sampleWorld (asked (countingTokenCall sampleWorld))
           "access-0" rateLimited); by vm_compute.
Defined.

Lemma cache_round_trip_witness :
  let env := ticking 1700000000000 1000 (Rejected "offline") (Rejected "offline") in
  let w1 := (cachePut env "/athlete" athlete sampleWorld).2 in
  cacheGet env "/athlete" w1 = (Returns (Some athlete), asked w1).
Proof.
  apply (proj2 (cache_round_trip
                  (ticking 1700000000000 1000 (Rejected "offline") (Rejected "offline"))
                  "/athlete" athlete sampleWorld
                  (cachePut (ticking 1700000000000 1000 (Rejected "offline") (Rejected "offline"))
                     "/athlete" athlete sampleWorld).2)).
  - reflexivity.
  - vm_compute. reflexivity.
Defined.

Lemma cache_expiry_witness :
  let env := ticking 1700000000000 300000 (Rejected "offline") (Rejected "offline") in
  let w1 := (cachePut env "/athlete" athlete sampleWorld).2 in
  cacheGet env "/athlete" w1 = (Returns None, asked w1) ∧
  cache (asked w1) !! "/athlete" = Some (mkCacheEntry athlete 1700000000000).
Proof.
  apply (cache_expiry
           (ticking 1700000000000 300000 (Rejected "offline") (Rejected "offline"))
           "/athlete" athlete sampleWorld
           (cachePut (ticking 1700000000000 300000 (Rejected "offline") (Rejected "offline"))
              "/athlete" athlete sampleWorld).2).
  - reflexivity.
  - vm_compute. discriminate.
Defined.

Lemma recentEvents_bounded_newest_first_witness :
  Webhook.getRecentEvents (Some 5) Webhook.oneEvent
  = Webhook.Content (Webhook.reportOf (take (Z.to_nat (Z.min 5 100)) Webhook.oneEvent)).
Proof.
  apply (proj1 (proj2 (proj2 (proj2
           (recentEvents_bounded_newest_first
              [Webhook.mkCall 1700000000000 "create" 12345678 134815 1549560669]))))).
  - lia.
  - constructor; [|constructor].
    split; simpl; unfold Webhook.maxTimeValue; lia.
Defined.

(** * Further properties of the code *)

(** ** [parseInt] reads back what the decimal rendering of a number prints *)

Lemma radixDigit_pretty_N_char (d : N) :
  (d < 10)%N → radixDigit 10 (pretty_N_char d) = Some (Z.of_N d).
Proof.
  intros Hd.
  assert (d = 0 ∨ d = 1 ∨ d = 2 ∨ d = 3 ∨ d = 4 ∨ d = 5 ∨ d = 6 ∨ d = 7 ∨ d = 8 ∨ d = 9)%N
    as Hcases by lia.
  repeat (destruct Hcases as [->|Hcases]; [reflexivity|]). by subst.
Qed.

(** The digits of a positive number, read in front of [s], give the number
    to continue with. *)
Lemma digits_pretty_N_go (x : N) (s : string) :
  (0 < x)%N → digits 10 (pretty_N_go x s) None = digits 10 s (Some (Z.of_N x)).
Proof.
  revert s. induction (N.lt_wf_0 x) as [x _ IH]. intros s Hx.
  rewrite pretty_N_go_step by done.
  assert (x `mod` 10 < 10)%N as Hmod by (apply N.mod_lt; lia).
  pose proof (N.Div0.div_mod x 10) as Hdm.
  destruct (decide (x `div` 10 = 0)%N) as [Hz|Hnz].
  - rewrite Hz, pretty_N_go_0. simpl.
    rewrite radixDigit_pretty_N_char by done. simpl. do 2 f_equal. lia.
  - rewrite IH by (try apply N.div_lt; lia). simpl.
    rewrite radixDigit_pretty_N_char by done. do 2 f_equal. lia.
Qed.

(** The rendering of a positive number starts with a digit from 1 to 9. *)
Lemma pretty_N_go_head (x : N) (s : string) :
  (0 < x)%N →
  ∃ d s', (1 <= d < 10)%N ∧ pretty_N_go x s = String (pretty_N_char d) s'.
Proof.
  revert s. induction (N.lt_wf_0 x) as [x _ IH]. intros s Hx.
  rewrite pretty_N_go_step by done.
  destruct (decide (x `div` 10 = 0)%N) as [Hz|Hnz].
  - rewrite Hz, pretty_N_go_0. exists (x `mod` 10)%N, s. split; [|done].
    pose proof (N.Div0.div_mod x 10). assert (x `mod` 10 < 10)%N by (apply N.mod_lt; lia). lia.
  - apply IH; [apply N.div_lt; lia | by apply N.neq_0_lt_0].
Qed.

Lemma parseInt_digits (d : N) (s' : string) :
  (1 <= d < 10)%N →
  parseInt (String (pretty_N_char d) s') = 
    match digits 10 (String (pretty_N_char d) s') None with
    | Some mathInt => Num mathInt
    | None => NaN
    end ∧
  parseInt (String "-" (String (pretty_N_char d) s')) =
    match digits 10 (String (pretty_N_char d) s') None with
    | Some mathInt => Num (- mathInt)
    | None => NaN
    end.
Proof.
  intros Hd.
  assert (d = 1 ∨ d = 2 ∨ d = 3 ∨ d = 4 ∨ d = 5 ∨ d = 6 ∨ d = 7 ∨ d = 8 ∨ d = 9)%N
    as Hcases by lia.
  assert (∀ c, match digits 10 (String c s') None with
               | Some mathInt => Num (1 * mathInt) | None => NaN end
             = match digits 10 (String c s') None with
               | Some mathInt => Num mathInt | None => NaN end) as Hpos.
  { intros c. destruct (digits _ _ _) as [m|]; [|done]. f_equal; try lia. }
  assert (∀ c, match digits 10 (String c s') None with
               | Some mathInt => Num (-1 * mathInt) | None => NaN end
             = match digits 10 (String c s') None with
               | Some mathInt => Num (- mathInt) | None => NaN end) as Hneg.
  { intros c. destruct (digits _ _ _) as [m|]; [|done]. f_equal; try lia. }
  repeat (destruct Hcases as [->|Hcases];
          [split; [rewrite <- Hpos | rewrite <- Hneg]; reflexivity|]).
  subst. split; [rewrite <- Hpos | rewrite <- Hneg]; reflexivity.
Qed.

Lemma parseInt_pretty (z : Z) : parseInt (pretty z) = Num z.
Proof.
  destruct z as [|p|p]; [reflexivity|..].
  - change (pretty (Z.pos p)) with (pretty_N_go (N.pos p) "").
    destruct (pretty_N_go_head (N.pos p) "") as (d & s' & Hd & Heq); [lia|].
    pose proof (digits_pretty_N_go (N.pos p) "" ltac:(lia)) as Hdig.
    rewrite Heq in *. rewrite (proj1 (parseInt_digits d s' Hd)), Hdig. done.
  - change (pretty (Z.neg p)) with (String "-" (pretty_N_go (N.pos p) "")).
    destruct (pretty_N_go_head (N.pos p) "") as (d & s' & Hd & Heq); [lia|].
    pose proof (digits_pretty_N_go (N.pos p) "" ltac:(lia)) as Hdig.
    rewrite Heq in *. rewrite (proj2 (parseInt_digits d s' Hd)), Hdig. done.
Qed.

(** ** More on the credential store and the token lifecycle *)

(** What the constructor returns, when it returns. *)
Lemma constructor_returns (penv : ProcessEnv) (tm : TokenManager) :
  constructor penv = Returns tm →
  tm = mkTokenManager
         (orElse (penv !! "STRAVA_ACCESS_TOKEN") "")
         (orElse (penv !! "STRAVA_REFRESH_TOKEN") "")
         (parseInt (orElse (penv !! "STRAVA_EXPIRES_AT") "0"))
         (orElse (penv !! "STRAVA_CLIENT_ID") "")
         (orElse (penv !! "STRAVA_CLIENT_SECRET") "").
Proof.
  unfold constructor. repeat case_match; intros [= <-]; done.
Qed.

(** A string that starts with a letter has no digit to read. *)
Lemma parseInt_letter (c : ascii) (rest : string) :
  isAsciiLetter c = true → parseInt (String c rest) = NaN.
Proof.
  destruct c as [[] [] [] [] [] [] [] []]; intros Hletter;
    vm_compute in Hletter; try discriminate Hletter; reflexivity.
Qed.

Lemma pretty_Z_truthy (z : Z) : truthy (pretty z) = true.
Proof.
  apply truthy_spec. intros Hempty.
  pose proof (parseInt_pretty z) as Hparse. rewrite Hempty in Hparse. discriminate.
Qed.

(** X1: the constructor reads back an expiry written in decimal, which is
    how [setup-auth.ts] and [refresh] print it: with the four required
    variables set and [STRAVA_EXPIRES_AT] the decimal rendering of an
    integer [e] of at most 2^53 in size (where a number and its rendering
    are exact), the credential store expires at [e]. *)
Theorem constructor_reads_back_expiry (penv : ProcessEnv) (e : Z) :
  configured penv →
  safeInteger e →
  penv !! "STRAVA_EXPIRES_AT" = Some (pretty e) →
  ∃ tm, constructor penv = Returns tm ∧ expiresAt tm = Num e.
Proof.
  intros ((ci & Hci & Nci) & (cs & Hcs & Ncs) & (at_ & Hat & Nat) & (rt & Hrt & Nrt)) _ He.
  unfold constructor.
  rewrite (orElse_isSet _ _ _ _ Hci Nci), (orElse_isSet _ _ _ _ Hcs Ncs),
    (orElse_isSet _ _ _ _ Hat Nat), (orElse_isSet _ _ _ _ Hrt Nrt).
  apply truthy_spec in Nci, Ncs, Nat, Nrt. rewrite Nci, Ncs, Nat, Nrt. simpl.
  eexists. split; [done|]. simpl.
  rewrite He. unfold orElse. rewrite pretty_Z_truthy. apply parseInt_pretty.
Qed.

(** X2: which error the constructor reports.  A missing client identifier
    or secret is reported first, whatever the tokens are; a missing access
    or refresh token is reported only when the client identity is set.  An
    empty value counts as missing. *)
Theorem constructor_error_messages (penv : ProcessEnv) :
  (¬ isSet penv "STRAVA_CLIENT_ID" ∨ ¬ isSet penv "STRAVA_CLIENT_SECRET" →
   constructor penv =
     Throws (Error "STRAVA_CLIENT_ID and STRAVA_CLIENT_SECRET must be set")) ∧
  (isSet penv "STRAVA_CLIENT_ID" → isSet penv "STRAVA_CLIENT_SECRET" →
   ¬ isSet penv "STRAVA_ACCESS_TOKEN" ∨ ¬ isSet penv "STRAVA_REFRESH_TOKEN" →
   constructor penv =
     Throws (Error "STRAVA_ACCESS_TOKEN and STRAVA_REFRESH_TOKEN must be set. Run setup-auth.ts first.")).
Proof.
  unfold constructor. rewrite <- !truthy_orElse.
  destruct (truthy (orElse (penv !! "STRAVA_CLIENT_ID") ""));
    destruct (truthy (orElse (penv !! "STRAVA_CLIENT_SECRET") ""));
    destruct (truthy (orElse (penv !! "STRAVA_ACCESS_TOKEN") ""));
    destruct (truthy (orElse (penv !! "STRAVA_REFRESH_TOKEN") ""));
    simpl; split; intros; try done; intuition congruence.
Qed.

Section TokenLifecycleMore.

Variable env : Environment.

(** The two runs of [getValidToken]. *)
Lemma getValidToken_no_refresh (w : World) :
  gt (Num (clock env (steps w) `div` 1000)) (sub (expiresAt (tokenManager w)) (Num oneHour))
    = false →
  getValidToken env w =
    (Returns (accessToken (tokenManager w)), asked (countingTokenCall w)).
Proof.
  intros Hgt. unfold getValidToken, bind, Date_now, getTokenManager.
  cbn -[gt sub refresh]. by rewrite Hgt.
Qed.

Lemma getValidToken_with_refresh (w : World) :
  gt (Num (clock env (steps w) `div` 1000)) (sub (expiresAt (tokenManager w)) (Num oneHour))
    = true →
  getValidToken env w =
    match refresh env (asked (countingTokenCall w)) with
    | (Returns _, w') => (Returns (accessToken (tokenManager w')), w')
    | (Throws ex, w') => (Throws ex, w')
    end.
Proof.
  intros Hgt. unfold getValidToken, bind, Date_now, getTokenManager.
  cbn -[gt sub refresh]. rewrite Hgt.
  by destruct (refresh env (asked (countingTokenCall w))) as [[[]|ex] w'].
Qed.

Lemma gt_expiring (now e : Z) :
  gt (Num now) (sub (Num e) (Num oneHour)) = bool_decide (e - 3600 < now).
Proof. reflexivity. Qed.

(** X3: [refresh] is all or nothing.  Whenever it throws, the credential
    store is what it was and exactly the refresh request was sent; and the
    exception tells why: the rejection of the fetch, the status and body of
    a non-2xx answer, or a 2xx body that is not JSON. *)
Theorem refresh_throws_keeps_credentials (w w' : World) (ex : Exn) :
  refresh env w = (Throws ex, w') →
  tokenManager w' = tokenManager w ∧
  sent w' = sent w ++ [refreshRequest (tokenManager w)] ∧
  match tokenEndpoint env (steps w) with
  | Rejected reason => ex = FetchError reason
  | Fulfilled r =>
      if ok r then json r = None ∧ ex = JsonSyntaxError
      else ex = Error ("Failed to refresh token: " +:+ pretty (status r) +:+ " " +:+ text r)
  end.
Proof.
  unfold refresh, bind, fetch, console_log, getTokenManager, response_json. simpl.
  destruct (tokenEndpoint env (steps w)) as [r|reason]; simpl;
    [|intros [= <- <-]; done].
  destruct (ok r); simpl; [|intros [= <- <-]; done].
  destruct (json r); simpl; [done|]. intros [= <- <-]. done.
Qed.

(** X4: the rotation is honoured.  After a refresh that succeeded with the
    body [d], the next refresh request carries the refresh token of [d]
    (not the one used before) with the same client identity. *)
Theorem refresh_sends_rotated_token (w : World) (r : Response TokenData) (d : TokenData) :
  tokenEndpoint env (steps w) = Fulfilled r →
  ok r = true →
  json r = Some d →
  ∃ next,
    sent (refresh env (refresh env w).2).2 =
      sent w ++ [refreshRequest (tokenManager w); next] ∧
    body next = Some (Grant.mk (clientId (tokenManager w)) (clientSecret (tokenManager w))
                        (refresh_token d) "refresh_token").
Proof.
  intros Hfetch Hok Hjson.
  destruct (refresh_accepted env w r d) as (w1 & Hrun & Htm); [done..|].
  pose proof (refresh_frame env w) as (Hs1 & _). rewrite Hrun in Hs1. simpl in Hs1.
  pose proof (refresh_frame env w1) as (Hs2 & _). simpl in Hs2.
  rewrite Hrun. simpl. exists (refreshRequest (tokenManager w1)). split.
  - rewrite Hs2, Hs1, <- app_assoc. done.
  - rewrite Htm. done.
Qed.

(** X5: a successful refresh buys quiet.  When [getValidToken] has
    refreshed and the new expiry is [e'], the next call made while the
    clock is at most [e' - 3600] returns the new access token and sends
    nothing. *)
Theorem getValidToken_quiet_after_refresh
    (w : World) (e e' : Z) (r : Response TokenData) (d : TokenData) :
  expiresAt (tokenManager w) = Num e →
  e - 3600 < clock env (steps w) `div` 1000 →
  tokenEndpoint env (S (steps w)) = Fulfilled r →
  ok r = true →
  json r = Some d →
  expires_at d = Num e' →
  clock env (steps (getValidToken env w).2) `div` 1000 <= e' - 3600 →
  (getValidToken env (getValidToken env w).2).1 = Returns (access_token d) ∧
  sent (getValidToken env (getValidToken env w).2).2 = sent (getValidToken env w).2.
Proof.
  intros He Hnow Hfetch Hok Hjson He'.
  destruct (refresh_accepted env (asked (countingTokenCall w)) r d)
    as (w1 & Hrun & Htm); [done..|].
  rewrite (getValidToken_with_refresh w);
    [|rewrite He, gt_expiring; by apply bool_decide_eq_true_2].
  rewrite Hrun. simpl. intros Hnow1.
  rewrite (getValidToken_no_refresh w1).
  - simpl. by rewrite Htm.
  - rewrite Htm. cbn [expiresAt]. rewrite He', gt_expiring. apply bool_decide_eq_false_2. lia.
Qed.

(** X6: a refused refresh is not papered over.  When the token is about
    to expire and the token endpoint answers with a status outside
    200-299, [getValidToken] throws the error of the refresh instead of
    returning the stored token, and the store is unchanged. *)
Theorem getValidToken_refresh_refused (w : World) (e : Z) (r : Response TokenData) :
  expiresAt (tokenManager w) = Num e →
  e - 3600 < clock env (steps w) `div` 1000 →
  tokenEndpoint env (S (steps w)) = Fulfilled r →
  ok r = false →
  ∃ w',
    getValidToken env w =
      (Throws (Error ("Failed to refresh token: " +:+ pretty (status r) +:+ " " +:+ text r)), w') ∧
    tokenManager w' = tokenManager w.
Proof.
  intros He Hnow Hfetch Hok.
  rewrite (getValidToken_with_refresh w);
    [|rewrite He, gt_expiring; by apply bool_decide_eq_true_2].
  unfold refresh, bind, fetch, console_log, getTokenManager. simpl.
  rewrite Hfetch. simpl. rewrite Hok. simpl. by eexists.
Qed.

(** X7: an expiry that is not a number disables the refresh.  When the
    constructor accepts an environment whose [STRAVA_EXPIRES_AT] starts
    with a letter (["undefined"], ["null"], ["soon"]), the expiry is [NaN]
    and [getValidToken] returns the initial access token and sends
    nothing, whatever the clock says. *)
Theorem unreadable_expiry_never_refreshes
    (penv : ProcessEnv) (tm : TokenManager) (w : World) (c : ascii) (rest : string) :
  constructor penv = Returns tm →
  penv !! "STRAVA_EXPIRES_AT" = Some (String c rest) →
  isAsciiLetter c = true →
  tokenManager w = tm →
  expiresAt tm = NaN ∧
  ∃ w',
    getValidToken env w = (Returns (orElse (penv !! "STRAVA_ACCESS_TOKEN") ""), w') ∧
    sent w' = sent w ∧ tokenManager w' = tm.
Proof.
  intros Hc Hvalue Hletter Htm. apply constructor_returns in Hc.
  assert (expiresAt tm = NaN) as Hnan.
  { rewrite Hc. cbn [expiresAt]. rewrite Hvalue. unfold orElse.
    change (truthy (String c rest)) with true. cbv iota.
    by apply parseInt_letter. }
  split; [done|].
  rewrite (getValidToken_no_refresh w).
  - eexists. split; [rewrite Htm, Hc; reflexivity|]. done.
  - rewrite Htm, Hnan. done.
Qed.

(** X8: a missing expiry forces a refresh.  When the constructor accepts
    an environment without [STRAVA_EXPIRES_AT], the expiry is 0 and the
    first [getValidToken], at any clock reading from the epoch on, sends
    the refresh request. *)
Theorem missing_expiry_forces_refresh
    (penv : ProcessEnv) (tm : TokenManager) (w : World) :
  constructor penv = Returns tm →
  penv !! "STRAVA_EXPIRES_AT" = None →
  tokenManager w = tm →
  0 <= clock env (steps w) →
  expiresAt tm = Num 0 ∧
  sent (getValidToken env w).2 = sent w ++ [refreshRequest tm].
Proof.
  intros Hc Hnone Htm Hnow. apply constructor_returns in Hc.
  assert (expiresAt tm = Num 0) as He by (rewrite Hc; simpl; by rewrite Hnone).
  split; [done|].
  rewrite (getValidToken_with_refresh w).
  2: { rewrite Htm, He, gt_expiring. apply bool_decide_eq_true_2.
       pose proof (Z.div_pos (clock env (steps w)) 1000). lia. }
  pose proof (refresh_frame env (asked (countingTokenCall w))) as (Hs & _).
  simpl in Hs. rewrite Htm in Hs.
  by destruct (refresh env (asked (countingTokenCall w))) as [[[]|ex] w'].
Qed.

End TokenLifecycleMore.

(** ** More on the request executor and the client methods *)

Lemma string_length_app (a b : string) :
  String.length (a +:+ b) = (String.length a + String.length b)%nat.
Proof. induction a as [|c a IH]; simpl; [done|]. by rewrite IH. Qed.

Lemma string_app_assoc (a b c : string) : (a +:+ b) +:+ c = a +:+ b +:+ c.
Proof.
  induction a as [|x a IH]; [done|].
  change (String x ((a +:+ b) +:+ c) = String x (a +:+ b +:+ c)). by rewrite IH.
Qed.

(** A common suffix can be cancelled. *)
Lemma string_app_inj_r (a b t : string) : a +:+ t = b +:+ t → a = b.
Proof.
  revert b. induction a as [|c a IH]; intros [|c' b] Heq; simpl in *.
  - done.
  - apply (f_equal String.length) in Heq. simpl in Heq.
    rewrite !string_length_app in Heq. simpl in Heq. lia.
  - apply (f_equal String.length) in Heq. simpl in Heq.
    rewrite !string_length_app in Heq. simpl in Heq. lia.
  - injection Heq as -> Heq. f_equal. by apply IH.
Qed.

(** X17: the cache keys of the client methods never collide.  The endpoints
    of [getLoggedInAthlete], [getActivities], [getActivity] and
    [getAthleteStats] are pairwise different whatever their arguments, and
    those of [getActivity] and [getAthleteStats] determine the identifier:
    an entry stored by one call is a hit only for the same method on the
    same identifier. *)
Theorem client_endpoints_distinct
    (params : ActivitiesParams) (activityId activityId' athleteId athleteId' : string) :
  athleteEndpoint ≠ activitiesEndpoint params ∧
  athleteEndpoint ≠ activityEndpoint activityId ∧
  athleteEndpoint ≠ athleteStatsEndpoint athleteId ∧
  activitiesEndpoint params ≠ activityEndpoint activityId ∧
  activitiesEndpoint params ≠ athleteStatsEndpoint athleteId ∧
  activityEndpoint activityId ≠ athleteStatsEndpoint athleteId ∧
  (activityEndpoint activityId = activityEndpoint activityId' → activityId = activityId') ∧
  (athleteStatsEndpoint athleteId = athleteStatsEndpoint athleteId' → athleteId = athleteId').
Proof.
  unfold athleteEndpoint, activitiesEndpoint, activityEndpoint, athleteStatsEndpoint.
  repeat split; try (simpl; discriminate).
  - simpl. intros [= Heq]. done.
  - simpl. intros [= Heq]. apply (string_app_inj_r _ _ "/stats"). exact Heq.
Qed.

(** X18: a parameter of [getActivities] that is 0 is dropped like an
    absent one ([before: 0], the epoch, cannot be asked for), and the
    parameters that remain are written in the order before, after, page,
    per_page, each in decimal when it is an integer of at most 2^53 in
    size. *)
Theorem getActivities_query (b a p n : Z) (params : ActivitiesParams) :
  let zeroIsAbsent v := match v with Some 0 => None | _ => v end in
  activitiesEndpoint params =
    activitiesEndpoint
      (mkActivitiesParams (zeroIsAbsent (before params)) (zeroIsAbsent (after params))
         (zeroIsAbsent (page params)) (zeroIsAbsent (per_page params))) ∧
  activitiesEndpoint (mkActivitiesParams None None None None) = "/athlete/activities?" ∧
  (b ≠ 0 → a ≠ 0 → p ≠ 0 → n ≠ 0 →
   safeInteger b → safeInteger a → safeInteger p → safeInteger n →
   activitiesEndpoint (mkActivitiesParams (Some b) (Some a) (Some p) (Some n)) =
     "/athlete/activities?before=" +:+ pretty b +:+ "&after=" +:+ pretty a +:+
     "&page=" +:+ pretty p +:+ "&per_page=" +:+ pretty n).
Proof.
  cbv zeta. split; [|split; [reflexivity|]].
  - unfold activitiesEndpoint.
    destruct params as [[[]|] [[]|] [[]|] [[]|]]; reflexivity.
  - intros Hb Ha Hp Hn _ _ _ _. unfold activitiesEndpoint, appendIfTruthy.
    cbn [before after page per_page].
    apply Z.eqb_neq in Hb, Ha, Hp, Hn. rewrite Hb, Ha, Hp, Hn.
    unfold URLSearchParams.toString, URLSearchParams.append, URLSearchParams.empty.
    cbn [app fmap list_fmap String.concat fst snd].
    rewrite !string_app_assoc. reflexivity.
Qed.

Section RequestExecutorMore.

Variable env : Environment.

(** The state after the cache check of a [request] that misses. *)
Lemma miss_frame (endpoint : string) (useCache : bool) (w w0 : World) :
  (if useCache then cacheGet env endpoint else ret None) w = (Returns None, w0) →
  tokenManager w0 = tokenManager w ∧ cache w0 = cache w ∧ sent w0 = sent w ∧
  tokenCalls w0 = tokenCalls w.
Proof.
  intros Hmiss. destruct useCache.
  - pose proof (cacheGet_frame env endpoint w) as Hf. rewrite Hmiss in Hf.
    simpl in Hf. tauto.
  - injection Hmiss as <-. done.
Qed.

(** X9: the successful run of [request].  After a miss (or without the
    cache), with a token and a 2xx answer whose body parses, [request]
    returns the parsed body; it has sent one GET to the base URL plus the
    endpoint with the token as bearer; and the body is stored under the
    endpoint, stamped with the clock, when [useCache] is set and only
    then. *)
Theorem request_success
    (endpoint : string) (useCache : bool) (w w0 w1 : World) (token : string)
    (r : Response Json) (v : Json) :
  (if useCache then cacheGet env endpoint else ret None) w = (Returns None, w0) →
  getValidToken env w0 = (Returns token, w1) →
  apiEndpoint env (steps w1) = Fulfilled r →
  ok r = true →
  json r = Some v →
  ∃ w',
    request env endpoint useCache w = (Returns v, w') ∧
    sent w' = sent w1 ++
      [mkRequest ("https://www.strava.com/api/v3" +:+ endpoint) GET
         [("Authorization", "Bearer " +:+ token)] None] ∧
    cache w' = (if useCache
                then <[endpoint := mkCacheEntry v (clock env (S (steps w1)))]> (cache w)
                else cache w) ∧
    tokenManager w' = tokenManager w1.
Proof.
  intros Hmiss Htoken Hfetch Hok Hjson.
  pose proof (miss_frame _ _ _ _ Hmiss) as (_ & Hc0 & _).
  pose proof (getValidToken_frame env w0) as Hg. rewrite Htoken in Hg.
  simpl in Hg. destruct Hg as (Hc1 & _).
  unfold request, bind. rewrite Hmiss, Htoken. simpl.
  unfold fetch, response_json. simpl. rewrite Hfetch. simpl. rewrite Hok. simpl.
  rewrite Hjson. simpl.
  destruct useCache; simpl; eexists; (split; [reflexivity|]); simpl;
    rewrite Hc1, Hc0; done.
Qed.

(** X10: [request] without the cache neither reads nor writes it.  Whatever
    the cache holds and whatever the outcome, the call asks the token
    manager and leaves the cache as it was. *)
Theorem request_without_cache (endpoint : string) (w : World) :
  cache (request env endpoint false w).2 = cache w ∧
  tokenCalls (request env endpoint false w).2 = S (tokenCalls w).
Proof.
  unfold request, bind, ret at 1. simpl.
  pose proof (getValidToken_frame env w) as (Hc & Ht & _).
  destruct (getValidToken env w) as [[token|ex] w1]; simpl in *; [|done].
  unfold fetch, response_json. simpl.
  destruct (apiEndpoint env (steps w1)) as [r|reason]; simpl; [|done].
  destruct (ok r); simpl; [|done].
  destruct (json r); simpl; done.
Qed.

(** X12: when the token manager fails, the data API is not called.  The
    [request] throws what [getValidToken] threw and stops in the state
    the token manager left: at most the refresh request was sent, and the
    cache is untouched. *)
Theorem request_token_failure
    (endpoint : string) (useCache : bool) (w w0 w1 : World) (ex : Exn) :
  (if useCache then cacheGet env endpoint else ret None) w = (Returns None, w0) →
  getValidToken env w0 = (Throws ex, w1) →
  request env endpoint useCache w = (Throws ex, w1) ∧
  (sent w1 = sent w ∨ sent w1 = sent w ++ [refreshRequest (tokenManager w)]) ∧
  cache w1 = cache w.
Proof.
  intros Hmiss Htoken.
  pose proof (miss_frame _ _ _ _ Hmiss) as (Htm0 & Hc0 & Hs0 & _).
  pose proof (getValidToken_frame env w0) as Hg. rewrite Htoken in Hg.
  simpl in Hg. destruct Hg as (Hc1 & _ & Hs1).
  unfold request, bind. rewrite Hmiss, Htoken. simpl.
  rewrite <- Htm0, <- Hs0, <- Hc0. done.
Qed.

(** X13: answers that cannot be used.  After a miss and with a token, the
    data request is sent once whatever comes back; when the fetch is
    rejected [request] throws the rejection, and when the answer is 2xx
    but its body is not JSON it throws the syntax error; neither is
    retried, neither is cached. *)
Theorem request_unusable_answer
    (endpoint : string) (useCache : bool) (w w0 w1 : World) (token : string) :
  (if useCache then cacheGet env endpoint else ret None) w = (Returns None, w0) →
  getValidToken env w0 = (Returns token, w1) →
  sent (request env endpoint useCache w).2 = sent w1 ++ [dataRequest endpoint token] ∧
  (∀ reason, apiEndpoint env (steps w1) = Rejected reason →
     (request env endpoint useCache w).1 = Throws (FetchError reason) ∧
     cache (request env endpoint useCache w).2 = cache w) ∧
  (∀ r, apiEndpoint env (steps w1) = Fulfilled r → ok r = true → json r = None →
     (request env endpoint useCache w).1 = Throws JsonSyntaxError ∧
     cache (request env endpoint useCache w).2 = cache w).
Proof.
  intros Hmiss Htoken.
  pose proof (miss_frame _ _ _ _ Hmiss) as (_ & Hc0 & _).
  pose proof (getValidToken_frame env w0) as Hg. rewrite Htoken in Hg.
  simpl in Hg. destruct Hg as (Hc1 & _).
  unfold request, bind. rewrite Hmiss, Htoken. simpl.
  unfold fetch, response_json. simpl.
  destruct (apiEndpoint env (steps w1)) as [r|reason]; simpl.
  - split; [|split].
    + destruct (ok r); simpl; [|done]. destruct (json r); simpl; [|done].
      by destruct useCache.
    + done.
    + intros ? [= <-] Hok Hjson. rewrite Hok. simpl. rewrite Hjson. simpl.
      by rewrite Hc1, Hc0.
  - split; [done|]. split; [|done]. intros ? [= <-]. simpl. by rewrite Hc1, Hc0.
Qed.

(** X14: a stale entry is replaced by the next successful fetch.  When the
    entry of the endpoint is 5 minutes old or more, [request] goes to the
    network, and on a 2xx answer whose body parses the entry holds the new
    body with a new timestamp. *)
Theorem request_replaces_stale_entry
    (endpoint : string) (w w1 : World) (cached : CacheEntry) (token : string)
    (r : Response Json) (v : Json) :
  cache w !! endpoint = Some cached →
  5 * 60 * 1000 <= clock env (steps w) - timestamp cached →
  getValidToken env (asked w) = (Returns token, w1) →
  apiEndpoint env (steps w1) = Fulfilled r →
  ok r = true →
  json r = Some v →
  ∃ w',
    request env endpoint true w = (Returns v, w') ∧
    sent w' = sent w1 ++ [dataRequest endpoint token] ∧
    cache w' !! endpoint = Some (mkCacheEntry v (clock env (S (steps w1)))).
Proof.
  intros Hget Hage Htoken Hfetch Hok Hjson.
  pose proof (cacheGet_stale env endpoint w cached Hget Hage) as Hmiss.
  destruct (request_stores env endpoint w (asked w) w1 token r v)
    as (w' & Hrun & Hw' & Hcache); [done..|].
  exists w'. split; [done|]. split.
  - rewrite Hw'. done.
  - rewrite Hcache. apply lookup_insert_eq.
Qed.

(** X15: a repeated request is served from the cache.  After a [request]
    that fetched and stored a body, the same [request], made before 5
    minutes have passed on the clock since the store, returns that body,
    sends nothing and does not ask the token manager. *)
Theorem request_repeat_within_ttl
    (endpoint : string) (w w0 w1 : World) (token : string)
    (r : Response Json) (v : Json) :
  cacheGet env endpoint w = (Returns None, w0) →
  getValidToken env w0 = (Returns token, w1) →
  apiEndpoint env (steps w1) = Fulfilled r →
  ok r = true →
  json r = Some v →
  clock env (steps (request env endpoint true w).2) - clock env (S (steps w1))
    < 5 * 60 * 1000 →
  (request env endpoint true (request env endpoint true w).2).1 = Returns v ∧
  sent (request env endpoint true (request env endpoint true w).2).2
    = sent (request env endpoint true w).2 ∧
  tokenCalls (request env endpoint true (request env endpoint true w).2).2
    = tokenCalls (request env endpoint true w).2.
Proof.
  intros Hmiss Htoken Hfetch Hok Hjson.
  destruct (request_stores env endpoint w w0 w1 token r v)
    as (w' & Hrun & _ & Hcache); [done..|].
  rewrite Hrun. simpl. intros Hage.
  assert (cache w' !! endpoint = Some (mkCacheEntry v (clock env (S (steps w1)))))
    as Hget by (rewrite Hcache; apply lookup_insert_eq).
  unfold request, bind. rewrite (cacheGet_hit env endpoint w' _ Hget Hage). done.
Qed.

(** X16: [clearCache] forgets every entry and nothing else.  After it the
    cache is empty and the credentials are untouched, so the check of any
    endpoint misses without reading the clock, and a [request] asks the
    token manager again. *)
Theorem clearCache_forgets (endpoint : string) (w : World) :
  cache (clearCache w).2 = ∅ ∧
  tokenManager (clearCache w).2 = tokenManager w ∧
  cacheGet env endpoint (clearCache w).2 = (Returns None, (clearCache w).2) ∧
  tokenCalls (request env endpoint true (clearCache w).2).2 = S (tokenCalls w).
Proof.
  remember (clearCache w).2 as w0 eqn:Hw0.
  assert (cache w0 = ∅ ∧ tokenManager w0 = tokenManager w ∧ tokenCalls w0 = tokenCalls w)
    as (Hc & Htm & Htc) by (by subst).
  clear Hw0. split; [done|]. split; [done|].
  assert (cacheGet env endpoint w0 = (Returns None, w0)) as Hmiss.
  { unfold cacheGet. by rewrite Hc, lookup_empty. }
  split; [done|].
  unfold request, bind. rewrite Hmiss. simpl.
  pose proof (getValidToken_frame env w0) as (_ & Ht & _).
  destruct (getValidToken env w0) as [[token|ex] w1]; simpl in *; [|congruence].
  unfold fetch, response_json. simpl.
  destruct (apiEndpoint env (steps w1)) as [r|reason]; simpl; [|congruence].
  destruct (ok r); simpl; [|congruence].
  destruct (json r); simpl; congruence.
Qed.

End RequestExecutorMore.

(** ** More on the webhook endpoints and the events tool *)

Section WebhookEndpoints.

Import Webhook.

Lemma postWebhook_buffered (post : Z * StravaEvent) (recentEvents : list WebhookEvent) :
  (length recentEvents <= 100)%nat →
  (postWebhook post.1 post.2 recentEvents).2 =
    if buffered post then take 100 (entryOf post :: recentEvents) else recentEvents.
Proof.
  intros Hlen. unfold postWebhook, buffered. simpl.
  destruct (bool_decide (object_type post.2 = "activity") && negb (object_id post.2 =? 0)).
  - exact (addWebhookEvent_take
             (mkCall post.1 (aspect_type post.2) (object_id post.2) (owner_id post.2)
                (event_time post.2)) recentEvents Hlen).
  - by destruct (bool_decide (object_type post.2 = "athlete")).
Qed.

(** X19: what the receiver keeps.  After any sequence of posts the buffer
    holds the 100 most recent activity events at most, newest first; a post
    whose [object_type] is not ["activity"] (an athlete event, say) or whose
    [object_id] is 0 leaves the buffer as it is; and every post is answered
    with [200 EVENT_RECEIVED], kept or not. *)
Theorem webhook_posts_buffer (posts : list (Z * StravaEvent)) :
  runPosts posts = take 100 (reverse (entryOf <$> filter (λ p, buffered p) posts)) ∧
  (length (runPosts posts) <= 100)%nat ∧
  (∀ now event recentEvents,
     (postWebhook now event recentEvents).1 = mkReply 200 "EVENT_RECEIVED" ∧
     (object_type event ≠ "activity" ∨ object_id event = 0 →
      (postWebhook now event recentEvents).2 = recentEvents)).
Proof.
  assert (runPosts posts = take 100 (reverse (entryOf <$> filter (λ p, buffered p) posts)))
    as Hrun.
  { induction posts as [|post posts IH] using rev_ind; [done|].
    unfold runPosts in *. rewrite foldl_snoc, IH.
    rewrite postWebhook_buffered by (rewrite length_take; lia).
    rewrite filter_app, filter_cons, filter_nil.
    destruct (decide (buffered post)) as [Hb|Hb].
    - apply Is_true_true in Hb. rewrite Hb.
      rewrite fmap_app, reverse_app. simpl.
      change (reverse [entryOf post]) with [entryOf post]. simpl.
      f_equal. rewrite take_take. f_equal.
    - apply Is_true_false in Hb. rewrite Hb. by rewrite app_nil_r. }
  split; [done|]. split; [rewrite Hrun, length_take; lia|].
  intros now event recentEvents. split; [done|].
  intros Hskip. unfold postWebhook. simpl.
  destruct (bool_decide (object_type event = "activity")) eqn:Hact; simpl.
  - destruct Hskip as [Hne| ->]; [by apply bool_decide_eq_true_1 in Hact|].
    simpl. by destruct (bool_decide (object_type event = "athlete")).
  - by destruct (bool_decide (object_type event = "athlete")).
Qed.



Lemma strictEq_Some (q : QueryValue) (s : string) :
  strictEq q (Some s) = true ↔ q = QString s.
Proof.
  destruct q as [|s'|]; simpl; [done| |done].
  rewrite bool_decide_eq_true. split; [by intros ->|by intros [= ->]].
Qed.

Lemma strictEq_None (q : QueryValue) : strictEq q None = true ↔ q = QAbsent.
Proof. by destruct q. Qed.

(** X22: who passes the subscription check.  With [WEBHOOK_VERIFY_TOKEN]
    set, the challenge is echoed exactly when [hub.mode] is the string
    [subscribe] and [hub.verify_token] is the string configured.  With the
    variable unset, it is echoed exactly when [hub.mode] is [subscribe] and
    the request carries no [hub.verify_token] at all: the comparison of
    [undefined] with [undefined] holds. *)
Theorem webhook_verification (penv : ProcessEnv) (mode token challenge : QueryValue) :
  (∀ secret, penv !! "WEBHOOK_VERIFY_TOKEN" = Some secret →
     (getWebhook penv mode token challenge = Echo challenge
      ↔ mode = QString "subscribe" ∧ token = QString secret)) ∧
  (penv !! "WEBHOOK_VERIFY_TOKEN" = None →
     (getWebhook penv mode token challenge = Echo challenge
      ↔ mode = QString "subscribe" ∧ token = QAbsent)) ∧
  (getWebhook penv mode token challenge ≠ Echo challenge →
   getWebhook penv mode token challenge = Forbidden).
Proof.
  unfold getWebhook. split; [|split].
  - intros secret ->. rewrite <- !strictEq_Some.
    destruct (strictEq mode (Some "subscribe")), (strictEq token (Some secret));
      simpl; intuition congruence.
  - intros ->. rewrite <- strictEq_Some, <- strictEq_None.
    destruct (strictEq mode (Some "subscribe")), (strictEq token None);
      simpl; intuition congruence.
  - by destruct (_ && _).
Qed.

End WebhookEndpoints.

(** ** The rendering of a duration *)

Section Durations.

Import SearchActivities.

Lemma string_app_inj_len (a b x y : string) :
  a +:+ x = b +:+ y → String.length x = String.length y → a = b ∧ x = y.
Proof.
  revert b. induction a as [|c a IH]; intros [|c' b] Heq Hlen.
  - done.
  - apply (f_equal String.length) in Heq.
    change (String.length x = S (String.length (b +:+ y))) in Heq.
    rewrite string_length_app in Heq. lia.
  - apply (f_equal String.length) in Heq.
    change (S (String.length (a +:+ x)) = String.length y) in Heq.
    rewrite string_length_app in Heq. lia.
  - change (String c (a +:+ x) = String c' (b +:+ y)) in Heq.
    injection Heq as -> Heq. destruct (IH b Heq Hlen) as [-> ->]. done.
Qed.

(** The seconds field has two characters and reads back as the seconds. *)
Lemma seconds_field (secs : Z) :
  0 <= secs < 60 →
  String.length (padStart2 (pretty secs)) = 2%nat ∧
  parseInt (padStart2 (pretty secs)) = Num secs.
Proof.
  intros Hsecs.
  set (check := λ n : Z,
         Nat.eqb (String.length (padStart2 (pretty n))) 2 &&
         match parseInt (padStart2 (pretty n)) with
         | Num m => m =? n
         | NaN => false
         end).
  assert (forallb check (seqZ 0 60) = true) as Hall by (vm_compute; reflexivity).
  rewrite forallb_forall in Hall.
  assert (check secs = true) as Hcheck.
  { apply Hall, list_elem_of_In, elem_of_seqZ. lia. }
  unfold check in Hcheck. apply andb_true_iff in Hcheck as [Hlen Hparse].
  split; [by apply Nat.eqb_eq|].
  destruct (parseInt (padStart2 (pretty secs))) as [m|]; [|done].
  apply Z.eqb_eq in Hparse. by subst.
Qed.

(** X23: what the rendering of a duration keeps.  For whole seconds below
    one hour the text [m:ss] determines the duration: two different
    durations are never rendered alike.  From one hour on (and up to 2^53
    seconds, where the arithmetic of the code is exact) the seconds are
    dropped: the text [Hh Mm] is that of the duration rounded down to the
    minute. *)
Theorem formatDuration_keeps (s1 s2 : Z) :
  (0 <= s1 < 3600 → 0 <= s2 < 3600 →
   formatDuration s1 = formatDuration s2 → s1 = s2) ∧
  (3600 <= s1 < 2 ^ 53 → formatDuration s1 = formatDuration (s1 - s1 `mod` 60)).
Proof.
  split.
  - intros H1 H2. unfold formatDuration.
    assert (∀ s, 0 <= s < 3600 →
              (0 <? s `div` 3600) = false ∧ (s `rem` 3600) `div` 60 = s `div` 60 ∧
              s `rem` 60 = s `mod` 60 ∧ 0 <= s `mod` 60 < 60) as Hparts.
    { intros s Hs. rewrite !Z.rem_mod_nonneg by lia.
      rewrite (Z.mod_small s 3600) by lia. rewrite (Z.div_small s 3600) by lia.
      split; [done|]. split; [done|]. split; [done|]. apply Z.mod_pos_bound. lia. }
    destruct (Hparts s1 H1) as (-> & -> & -> & Hs1).
    destruct (Hparts s2 H2) as (-> & -> & -> & Hs2).
    destruct (seconds_field _ Hs1) as (Hl1 & Hp1).
    destruct (seconds_field _ Hs2) as (Hl2 & Hp2).
    intros Heq.
    rewrite <- !(string_app_assoc _ ":" _) in Heq.
    apply string_app_inj_len in Heq as [Hmin Hsec]; [|congruence].
    apply (string_app_inj_r _ _ ":") in Hmin. apply (inj pretty) in Hmin.
    rewrite Hsec in Hp1. rewrite Hp1 in Hp2. injection Hp2 as Hmod.
    rewrite (Z.div_mod s1 60), (Z.div_mod s2 60) by lia. lia.
  - intros [H1 _]. unfold formatDuration.
    assert (0 <= s1 `mod` 60 < 60) as Hm by (apply Z.mod_pos_bound; lia).
    assert ((s1 - s1 `mod` 60) `div` 3600 = s1 `div` 3600 ∧
            ((s1 - s1 `mod` 60) `rem` 3600) `div` 60 = (s1 `rem` 3600) `div` 60) as [-> ->].
    { rewrite !Z.rem_mod_nonneg by lia. split; Z.div_mod_to_equations; lia. }
    assert ((0 <? s1 `div` 3600) = true) as ->.
    { apply Z.ltb_lt. apply Z.div_str_pos. lia. }
    done.
Qed.

End Durations.

(** ** The further properties at sample inputs *)

Lemma constructor_reads_back_expiry_witness :
  ∃ tm, constructor envComplete = Returns tm ∧ expiresAt tm = Num 1700003600.
Proof.
  apply (constructor_reads_back_expiry envComplete 1700003600).
  - repeat split; eexists; (split; [by vm_compute | discriminate]).
  - unfold safeInteger. lia.
  - by vm_compute.
Defined.

Lemma constructor_error_messages_witness :
  constructor (delete "STRAVA_REFRESH_TOKEN" envComplete) =
    Throws (Error "STRAVA_ACCESS_TOKEN and STRAVA_REFRESH_TOKEN must be set. Run setup-auth.ts first.").
Proof.
  apply (proj2 (constructor_error_messages (delete "STRAVA_REFRESH_TOKEN" envComplete))).
  - eexists. split; [by vm_compute | discriminate].
  - eexists. split; [by vm_compute | discriminate].
  - right. intros (v & Hv & _). vm_compute in Hv. discriminate.
Defined.

Lemma refresh_throws_keeps_credentials_witness :
  let w' := (refresh refusingEnv sampleWorld).2 in
  tokenManager w' = tokenManager sampleWorld ∧
  sent w' = sent sampleWorld ++ [refreshRequest (tokenManager sampleWorld)] ∧
  match tokenEndpoint refusingEnv (steps sampleWorld) with
  | Rejected reason =>
      Error "Failed to refresh token: 401 Authorization Error" = FetchError reason
  | Fulfilled r =>
      if ok r
      then json r = None ∧
           Error "Failed to refresh token: 401 Authorization Error" = JsonSyntaxError
      else Error "Failed to refresh token: 401 Authorization Error" =
           Error ("Failed to refresh token: " +:+ pretty (status r) +:+ " " +:+ text r)
  end.
Proof.
  apply (refresh_throws_keeps_credentials refusingEnv sampleWorld
           (refresh refusingEnv sampleWorld).2
           (Error "Failed to refresh token: 401 Authorization Error")).
  by vm_compute.
Defined.

Lemma refresh_sends_rotated_token_witness :
  ∃ next,
    sent (refresh grantingEnv (refresh grantingEnv sampleWorld).2).2 =
      sent sampleWorld ++ [refreshRequest (tokenManager sampleWorld); next] ∧
    body next = Some (Grant.mk "4711" "s3cret" "refresh-1" "refresh_token").
Proof.
  apply (refresh_sends_rotated_token grantingEnv sampleWorld tokenGranted rotatedTokens);
    reflexivity.
Defined.

Lemma getValidToken_quiet_after_refresh_witness :
  (getValidToken grantingEnv (getValidToken grantingEnv sampleWorld).2).1 = Returns "access-1" ∧
  sent (getValidToken grantingEnv (getValidToken grantingEnv sampleWorld).2).2
    = sent (getValidToken grantingEnv sampleWorld).2.
Proof.
  apply (getValidToken_quiet_after_refresh grantingEnv sampleWorld 1700003600 1700025200
           tokenGranted rotatedTokens); try reflexivity.
  vm_compute. discriminate.
Defined.

Lemma getValidToken_refresh_refused_witness :
  ∃ w',
    getValidToken refusingEnv sampleWorld =
      (Throws (Error "Failed to refresh token: 401 Authorization Error"), w') ∧
    tokenManager w' = tokenManager sampleWorld.
Proof.
  apply (getValidToken_refresh_refused refusingEnv sampleWorld 1700003600 tokenRefused);
    reflexivity.
Defined.

Lemma unreadable_expiry_never_refreshes_witness :
  let tm := mkTokenManager "access-0" "refresh-0" NaN "4711" "s3cret" in
  expiresAt tm = NaN ∧
  ∃ w',
    getValidToken grantingEnv (worldWith tm) = (Returns "access-0", w') ∧
    sent w' = sent (worldWith tm) ∧ tokenManager w' = tm.
Proof.
  apply (unreadable_expiry_never_refreshes grantingEnv envUnreadableExpiry
           (mkTokenManager "access-0" "refresh-0" NaN "4711" "s3cret")
           (worldWith (mkTokenManager "access-0" "refresh-0" NaN "4711" "s3cret"))
           "s"%char "oon");
    by vm_compute.
Defined.

Lemma missing_expiry_forces_refresh_witness :
  let tm := mkTokenManager "access-0" "refresh-0" (Num 0) "4711" "s3cret" in
  expiresAt tm = Num 0 ∧
  sent (getValidToken grantingEnv (worldWith tm)).2 = sent (worldWith tm) ++ [refreshRequest tm].
Proof.
  apply (missing_expiry_forces_refresh grantingEnv envWithoutExpiry
           (mkTokenManager "access-0" "refresh-0" (Num 0) "4711" "s3cret")
           (worldWith (mkTokenManager "access-0" "refresh-0" (Num 0) "4711" "s3cret")));
    by vm_compute.
Defined.

Lemma request_success_witness :
  ∃ w',
    request steadyEnv "/athlete" true sampleWorld = (Returns athlete, w') ∧
    sent w' = sent (asked (countingTokenCall sampleWorld)) ++
      [mkRequest ("https://www.strava.com/api/v3" +:+ "/athlete") GET
         [("Authorization", "Bearer " +:+ "access-0")] None] ∧
    cache w' = <["/athlete" := mkCacheEntry athlete
                   (clock steadyEnv (S (steps (asked (countingTokenCall sampleWorld)))))]>
                 (cache sampleWorld) ∧
    tokenManager w' = tokenManager (asked (countingTokenCall sampleWorld)).
Proof.
  apply (request_success steadyEnv "/athlete" true sampleWorld sampleWorld
           (asked (countingTokenCall sampleWorld)) "access-0" athleteFound athlete);
    reflexivity.
Defined.

Lemma request_failure_keeps_cache_witness :
  cache (request limitingEnv "/athlete" true staleWorld).2 = cache staleWorld.
Proof.
  apply (request_failure_keeps_cache limitingEnv "/athlete" true staleWorld
           (request limitingEnv "/athlete" true staleWorld).2
           (Error "Strava API error: 429 Rate Limit Exceeded")).
  by vm_compute.
Defined.

Lemma request_token_failure_witness :
  let w1 := (getValidToken refusingEnv sampleWorld).2 in
  request refusingEnv "/athlete" true sampleWorld =
    (Throws (Error "Failed to refresh token: 401 Authorization Error"), w1) ∧
  (sent w1 = sent sampleWorld ∨
   sent w1 = sent sampleWorld ++ [refreshRequest (tokenManager sampleWorld)]) ∧
  cache w1 = cache sampleWorld.
Proof.
  apply (request_token_failure refusingEnv "/athlete" true sampleWorld sampleWorld
           (getValidToken refusingEnv sampleWorld).2
           (Error "Failed to refresh token: 401 Authorization Error")); by vm_compute.
Defined.

Lemma request_unusable_answer_witness :
  (request offlineEnv "/athlete" true sampleWorld).1 = Throws (FetchError "offline") ∧
  cache (request offlineEnv "/athlete" true sampleWorld).2 = cache sampleWorld.
Proof.
  apply (proj1 (proj2 (request_unusable_answer offlineEnv "/athlete" true sampleWorld
                         sampleWorld (asked (countingTokenCall sampleWorld)) "access-0"
                         eq_refl eq_refl)) "offline").
  reflexivity.
Defined.

Lemma request_replaces_stale_entry_witness :
  ∃ w',
    request steadyEnv "/athlete" true staleWorld = (Returns athlete, w') ∧
    sent w' = sent (asked (countingTokenCall (asked staleWorld)))
              ++ [dataRequest "/athlete" "access-0"] ∧
    cache w' !! "/athlete" =
      Some (mkCacheEntry athlete
              (clock steadyEnv (S (steps (asked (countingTokenCall (asked staleWorld))))))).
Proof.
  apply (request_replaces_stale_entry steadyEnv "/athlete" staleWorld
           (asked (countingTokenCall (asked staleWorld)))
           (mkCacheEntry JNull 1699999000000) "access-0" athleteFound athlete);
    try reflexivity.
  vm_compute. discriminate.
Defined.

Lemma request_repeat_within_ttl_witness :
  let w' := (request steadyEnv "/athlete" true sampleWorld).2 in
  (request steadyEnv "/athlete" true w').1 = Returns athlete ∧
  sent (request steadyEnv "/athlete" true w').2 = sent w' ∧
  tokenCalls (request steadyEnv "/athlete" true w').2 = tokenCalls w'.
Proof.
  apply (request_repeat_within_ttl steadyEnv "/athlete" sampleWorld sampleWorld
           (asked (countingTokenCall sampleWorld)) "access-0" athleteFound athlete);
    reflexivity.
Defined.

Lemma client_endpoints_distinct_witness : "12345678" = "12345678".
Proof.
  apply (proj1 (proj2 (proj2 (proj2 (proj2 (proj2 (proj2
           (client_endpoints_distinct (mkActivitiesParams None None None None)
              "12345678" "12345678" "134815" "134815")))))))).
  reflexivity.
Defined.

Lemma getActivities_query_witness :
  activitiesEndpoint (mkActivitiesParams (Some 1700000000) (Some 1690000000) (Some 2) (Some 100)) =
    "/athlete/activities?before=" +:+ pretty 1700000000 +:+ "&after=" +:+ pretty 1690000000 +:+
    "&page=" +:+ pretty 2 +:+ "&per_page=" +:+ pretty 100.
Proof.
  apply (proj2 (proj2 (getActivities_query 1700000000 1690000000 2 100
                         (mkActivitiesParams None None None None))));
    unfold safeInteger; lia.
Defined.

Lemma webhook_posts_buffer_witness :
  (Webhook.postWebhook 1700000000000 athleteUpdated Webhook.oneEvent).2 = Webhook.oneEvent.
Proof.
  apply (proj2 (proj2 (proj2 (webhook_posts_buffer []))
                  1700000000000 athleteUpdated Webhook.oneEvent)).
  left. discriminate.
Defined.



Lemma webhook_verification_witness :
  Webhook.getWebhook ∅ (Webhook.QString "subscribe") Webhook.QAbsent (Webhook.QString "15f7d1a91c1f40f8a748fd134752feb3")
    = Webhook.Echo (Webhook.QString "15f7d1a91c1f40f8a748fd134752feb3").
Proof.
  apply (proj1 (proj2 (webhook_verification ∅ (Webhook.QString "subscribe") Webhook.QAbsent
                         (Webhook.QString "15f7d1a91c1f40f8a748fd134752feb3")))).
  - reflexivity.
  - split; reflexivity.
Defined.

Lemma formatDuration_keeps_witness :
  SearchActivities.formatDuration 3725 = SearchActivities.formatDuration (3725 - 3725 `mod` 60).
Proof.
  apply (proj2 (formatDuration_keeps 3725 0)). lia.
Defined.

(** ** More runs of the program *)

Example formatDuration_samples :
  SearchActivities.formatDuration 59 = "0:59" ∧
  SearchActivities.formatDuration 125 = "2:05" ∧
  SearchActivities.formatDuration 3600 = "1h 0m" ∧
  SearchActivities.formatDuration 3725 = "1h 2m".
Proof. by vm_compute. Qed.

Example activitiesEndpoint_samples :
  activitiesEndpoint (mkActivitiesParams None (Some 1690000000) None (Some 100))
    = "/athlete/activities?after=1690000000&per_page=100" ∧
  activitiesEndpoint (mkActivitiesParams (Some 0) None (Some 0) None)
    = "/athlete/activities?".
Proof. by vm_compute. Qed.

Example getWebhook_samples :
  let penv : ProcessEnv := <["WEBHOOK_VERIFY_TOKEN" := "STRAVA"]> ∅ in
  Webhook.getWebhook penv (Webhook.QString "subscribe") (Webhook.QString "STRAVA")
    (Webhook.QString "15f7d1a91c1f40f8a748fd134752feb3")
    = Webhook.Echo (Webhook.QString "15f7d1a91c1f40f8a748fd134752feb3") ∧
  Webhook.getWebhook penv (Webhook.QString "subscribe") (Webhook.QString "strava")
    (Webhook.QString "15f7d1a91c1f40f8a748fd134752feb3") = Webhook.Forbidden ∧
  Webhook.getWebhook penv (Webhook.QString "subscribe") Webhook.QAbsent
    (Webhook.QString "15f7d1a91c1f40f8a748fd134752feb3") = Webhook.Forbidden.
Proof. by vm_compute. Qed.

Example runPosts_sample :
  Webhook.runPosts [(1700000000000, activityCreated); (1700000001000, athleteUpdated)]
    = [Webhook.mkWebhookEvent "create" 12345678 134815 1700000000000 1549560669000].
Proof. by vm_compute. Qed.

(** A date at the edge of what [toISOString] prints, and one beyond it:
    the tool reports the first and answers the error for the second. *)
Example getRecentEvents_time_range :
  Webhook.getRecentEvents None
    (Webhook.runCalls [Webhook.mkCall 1700000000000 "create" 1 134815 8640000000000])
  = Webhook.Content
      (Webhook.mkReport 1
         [Webhook.mkFormattedEvent "create" 1 134815 8640000000000000 1700000000000]) ∧
  Webhook.getRecentEvents None
    (Webhook.runCalls [Webhook.mkCall 1700000000000 "create" 1 134815 8640000000001])
  = Webhook.IsError "Error: Invalid time value".
Proof. split; vm_compute; reflexivity. Qed.
